(** * Rule evaluation engine of the transaction dashboard (app.js)

    A shallow embedding of the rule-checking functions of [app.js]
    ([checkOneCondition], [checkOneRule], [checkAllRules] and the hit-rate
    computations of [renderRules] and [renderStats]) together with the
    JavaScript built-ins they rely on ([parseFloat], [String],
    [String.prototype.toLowerCase], [String.prototype.includes],
    [Math.round], number comparison, division and multiplication).

    Data model.
    - A JavaScript number is an IEEE-754 binary64 value: [spec_float] of the
      Standard Library with [prec = 53] and [emax = 1024].
    - Text is [string]; [toLowerCase] and the white space skipped by
      [parseFloat] are modelled on the ASCII range.
    - A field value of a transaction or of a feature vector is one of the
      scalars JSON can carry (number, string, boolean, null); reading a
      field the record does not have gives [undefined].  Records are finite
      maps from field names to such values; members inherited from
      [Object.prototype] are outside the model.
    - The module-level variables of [app.js] form the record [Globals];
      the functions that read them are written in a state monad over it. *)

From Stdlib Require Import ZArith List Bool Lia.
From Stdlib Require Import Floats.SpecFloat.
From Stdlib Require Import Strings.String Strings.Ascii.
From Stdlib Require Import Numbers.DecimalString.
From stdpp Require Import base decidable option list numbers gmap strings.

Import ListNotations.
Local Open Scope string_scope.
Local Open Scope Z_scope.

(* ===================================================================== *)
(** ** JavaScript numbers *)
(* ===================================================================== *)

Module Number.

Definition prec : Z := 53.
Definition emax : Z := 1024.

Definition NaN : spec_float := S754_nan.
Definition Infinity : spec_float := S754_infinity false.

(** The number denoted by an integer literal or held by an integer
    counter (exact below 2^53). *)
Definition of_Z (n : Z) : spec_float := binary_normalize prec emax n 0 false.

Definition div : spec_float -> spec_float -> spec_float := SFdiv prec emax.
Definition mul : spec_float -> spec_float -> spec_float := SFmul prec emax.

(** The relational operators [<], [>], [<=], [>=] on numbers, and [===]. *)
Definition lt (x y : spec_float) : bool := SFltb x y.
Definition gt (x y : spec_float) : bool := SFltb y x.
Definition le (x y : spec_float) : bool := SFleb x y.
Definition ge (x y : spec_float) : bool := SFleb y x.
Definition eq (x y : spec_float) : bool := SFeqb x y.

Definition isNaN (x : spec_float) : bool :=
  match x with S754_nan => true | _ => false end.

(** The number nearest to [m * 10^e10] (ties to even), negated when
    [neg]: the value of a decimal literal. *)
Definition of_decimal (neg : bool) (m : Z) (e10 : Z) : spec_float :=
  match m with
  | Zpos p =>
      if 0 <=? e10
      then binary_normalize prec emax
             (if neg then - (m * 10 ^ e10) else m * 10 ^ e10) 0 neg
      else SFdiv prec emax (S754_finite neg p 0)
                           (S754_finite false (Z.to_pos (10 ^ (- e10))) 0)
  | _ => S754_zero neg
  end.

(** [Math.round]: the integer nearest to [x], halves going up. *)
Definition round (x : spec_float) : spec_float :=
  match x with
  | S754_finite s m e =>
      if 0 <=? e then x
      else
        let d := 2 ^ (- e) in
        let n := (2 * (if s then Z.neg m else Z.pos m) + d) / (2 * d) in
        if n =? 0 then S754_zero s else of_Z n
  | _ => x
  end.

(** *** Number::toString, radix 10 *)

(** A positive finite number is [num / den] exactly. *)
Definition num (m : positive) (e : Z) : Z := if 0 <=? e then Z.pos m * 2 ^ e else Z.pos m.
Definition den (e : Z) : Z := if 0 <=? e then 1 else 2 ^ (- e).

(** How many decimal digits the integer [a >= 1] has. *)
Fixpoint count_digits (fuel : nat) (a : Z) : Z :=
  match fuel with
  | O => 0
  | S fuel' => if a <? 10 then 1 else 1 + count_digits fuel' (a / 10)
  end.

(** For [0 < a / b < 1]: how many zeros follow the decimal point. *)
Fixpoint count_zeros (fuel : nat) (a b : Z) : Z :=
  match fuel with
  | O => 0
  | S fuel' => if b <=? 10 * a then 0 else 1 + count_zeros fuel' (10 * a) b
  end.

(** The [n] with [10^(n-1) <= a / b < 10^n]. *)
Definition decimal_exponent (a b : Z) : Z :=
  if b <=? a
  then count_digits (S (Z.to_nat (Z.log2 a))) (a / b)
  else - count_zeros (S (Z.to_nat (Z.log2 b))) a b.

(** [a / b * 10^j] rounded down, with the doubled remainder compared to
    the divisor to tell which neighbour is nearer. *)
Definition scaled (a b j : Z) : Z * comparison :=
  let a' := if 0 <=? j then a * 10 ^ j else a in
  let b' := if 0 <=? j then b else b * 10 ^ (- j) in
  (a' / b', (2 * (a' mod b')) ?= b').

(** The shortest digit string [s] (with [k] digits) and the exponent [n]
    such that [s * 10^(n-k)] reads back as [x]; among the candidates with
    [k] digits the one nearest to [x], the even one on a tie. *)
Fixpoint shortest (fuel : nat) (k : Z) (x : spec_float) (a b n : Z) : Z * Z * Z :=
  let '(lo, half) := scaled a b (k - n) in
  let hi := lo + 1 in
  let ok s := SFeqb (of_decimal false s (n - k)) x in
  let pick s := if s =? 10 ^ k then (10 ^ (k - 1), k, n + 1) else (s, k, n) in
  let first :=
    match half with
    | Lt => lo
    | Gt => hi
    | Eq => if Z.even lo then lo else hi
    end in
  let second := if first =? lo then hi else lo in
  match fuel with
  | O => pick first
  | S fuel' =>
      if ok first then pick first
      else if ok second then pick second
      else shortest fuel' (k + 1) x a b n
  end.

Definition digits_of (s : Z) : string := NilZero.string_of_uint (N.to_uint (Z.to_N s)).

Fixpoint zeros (n : nat) : string :=
  match n with O => "" | S n' => String "0" (zeros n') end.

Definition substring_from (n : nat) (s : string) : string :=
  substring n (String.length s - n) s.

Definition toString_pos (x : spec_float) (m : positive) (e : Z) : string :=
  let a := num m e in
  let b := den e in
  let '(s, k, n) := shortest 16 1 x a b (decimal_exponent a b) in
  let ds := digits_of s in
  if (k <=? n) && (n <=? 21) then
    ds ++ zeros (Z.to_nat (n - k))
  else if (0 <? n) && (n <=? 21) then
    substring 0 (Z.to_nat n) ds ++ "." ++ substring_from (Z.to_nat n) ds
  else if (-6 <? n) && (n <=? 0) then
    "0." ++ zeros (Z.to_nat (- n)) ++ ds
  else
    let ex := (if 0 <=? n - 1 then "+" else "-") ++ digits_of (Z.abs (n - 1)) in
    if k =? 1 then ds ++ "e" ++ ex
    else substring 0 1 ds ++ "." ++ substring_from 1 ds ++ "e" ++ ex.

Definition toString (x : spec_float) : string :=
  match x with
  | S754_nan => "NaN"
  | S754_zero _ => "0"
  | S754_infinity s => if s then "-Infinity" else "Infinity"
  | S754_finite s m e =>
      (if s then "-" else "") ++ toString_pos (S754_finite false m e) m e
  end.

End Number.

(* ===================================================================== *)
(** ** JavaScript strings *)
(* ===================================================================== *)

Module Text.

Definition code (c : ascii) : Z := Z.of_N (N_of_ascii c).

Definition lower_char (c : ascii) : ascii :=
  if (65 <=? code c) && (code c <=? 90)
  then ascii_of_N (Z.to_N (code c + 32))
  else c.

(** [String.prototype.toLowerCase] on ASCII text: the letters A-Z are
    mapped and everything else is kept.  The case mapping of the other
    characters of Unicode is not modelled; a statement that depends on the
    lower-cased text is made for ASCII text, see [is_ascii]. *)
Fixpoint toLowerCase (s : string) : string :=
  match s with
  | EmptyString => EmptyString
  | String c s' => String (lower_char c) (toLowerCase s')
  end.

(** Text all of whose characters are ASCII. *)
Fixpoint is_ascii (s : string) : bool :=
  match s with
  | EmptyString => true
  | String c s' => (code c <? 128) && is_ascii s'
  end.

(** [a] and [b] have the same length and read the same, character by
    character, when the case of the letters A-Z is ignored. *)
Fixpoint same_letters (a b : string) : bool :=
  match a, b with
  | EmptyString, EmptyString => true
  | String x a', String y b' =>
      Ascii.eqb (lower_char x) (lower_char y) && same_letters a' b'
  | _, _ => false
  end.

(** [String.prototype.includes]: [t] occurs somewhere in [s]. *)
Fixpoint includes (s t : string) : bool :=
  String.prefix t s ||
  match s with
  | EmptyString => false
  | String _ s' => includes s' t
  end.

(** *** The grammar read by [parseFloat]: leading white space, then the
    longest prefix that is a [StrDecimalLiteral]. *)

Definition is_space (c : ascii) : bool :=
  ((9 <=? code c) && (code c <=? 13)) || (code c =? 32).

Fixpoint skip_spaces (s : string) : string :=
  match s with
  | EmptyString => EmptyString
  | String c s' => if is_space c then skip_spaces s' else s
  end.

Definition digit_of (c : ascii) : option Z :=
  if (48 <=? code c) && (code c <=? 57) then Some (code c - 48) else None.

(** Reads the longest run of decimal digits at the head of [s], appending
    them to the digits already in [acc]; returns the number read, how many
    digits were consumed and what is left. *)
Fixpoint read_digits (s : string) (acc count : Z) : Z * Z * string :=
  match s with
  | EmptyString => (acc, count, s)
  | String c s' =>
      match digit_of c with
      | Some d => read_digits s' (10 * acc + d) (count + 1)
      | None => (acc, count, s)
      end
  end.

Definition read_sign (s : string) : bool * string :=
  match s with
  | String "+" s' => (false, s')
  | String "-" s' => (true, s')
  | _ => (false, s)
  end.

(** An [ExponentPart] at the head of [s], or 0 when there is none. *)
Definition read_exponent (s : string) : Z :=
  match s with
  | String c s' =>
      if (code c =? 101) || (code c =? 69) then
        let '(neg, s'') := read_sign s' in
        let '(v, count, _) := read_digits s'' 0 0 in
        if count =? 0 then 0 else if neg then - v else v
      else 0
  | EmptyString => 0
  end.

Definition parse_number (s : string) : spec_float :=
  let '(neg, s0) := read_sign (skip_spaces s) in
  if String.prefix "Infinity" s0 then S754_infinity neg
  else
    let '(ip, ic, s1) := read_digits s0 0 0 in
    let '(fp, fc, s2) :=
      match s1 with
      | String "." r => read_digits r ip 0
      | _ => (ip, 0, s1)
      end in
    if ic + fc =? 0 then Number.NaN
    else Number.of_decimal neg fp (read_exponent s2 - fc).

End Text.

(* ===================================================================== *)
(** ** Values and records *)
(* ===================================================================== *)

(** What a field of a record loaded from JSON can hold, and [undefined]
    for what a read of a missing field gives. *)
Inductive jsval : Type :=
  | VUndefined
  | VNull
  | VBool (b : bool)
  | VNum (x : spec_float)
  | VStr (s : string).

(** The conversion [String(v)]. *)
Definition String_ (v : jsval) : string :=
  match v with
  | VUndefined => "undefined"
  | VNull => "null"
  | VBool b => if b then "true" else "false"
  | VNum x => Number.toString x
  | VStr s => s
  end.

(** [parseFloat(v)] converts its argument to a string and reads a number
    off its head. *)
Definition parseFloat (v : jsval) : spec_float := Text.parse_number (String_ v).

(** Strict equality [a === b]. *)
Definition strict_eq (a b : jsval) : bool :=
  match a, b with
  | VUndefined, VUndefined => true
  | VNull, VNull => true
  | VBool x, VBool y => Bool.eqb x y
  | VNum x, VNum y => Number.eq x y
  | VStr x, VStr y => String.eqb x y
  | _, _ => false
  end.

(** [actualValue === null || actualValue === undefined]. *)
Definition is_missing (v : jsval) : bool :=
  strict_eq v VNull || strict_eq v VUndefined.

(** A transaction or a feature vector: an object with scalar members. *)
Abbreviation JSRecord := (gmap string jsval).

(** A member read under a name the program writes out ([tx.amount],
    [tx.transaction_id], ...): the record's own member, [undefined] when it
    has none.  None of these names is a member of [Object.prototype]. *)
Definition get (o : JSRecord) (k : jsval) : jsval :=
  default VUndefined (o !! String_ k).

(** The names every object inherits a member for from [Object.prototype]. *)
Definition inherited_functions : list string :=
  [ "hasOwnProperty"; "isPrototypeOf"; "propertyIsEnumerable"; "toLocaleString";
    "toString"; "valueOf"; "__defineGetter__"; "__defineSetter__";
    "__lookupGetter__"; "__lookupSetter__" ].

(** The text [String()] makes of the member inherited under [name], if there
    is one: [constructor] is the function [Object], [__proto__] reads the
    prototype itself, and the others are functions of their own name.  A
    built-in function is printed the way V8 prints it (other engines break
    the line before and after [[native code]]). *)
Definition inherited (name : string) : option string :=
  if String.eqb name "constructor" then Some "function Object() { [native code] }"
  else if String.eqb name "__proto__" then Some "[object Object]"
  else if existsb (String.eqb name) inherited_functions
  then Some ("function " ++ name ++ "() { [native code] }")
  else None.

(** The member access [o[k]] under a computed key, as [checkOneCondition]
    makes it on line 67 and on line 71: the record's own member, else the
    member inherited from [Object.prototype], else [undefined].
    [checkOneCondition] compares what it reads with [null] and [undefined],
    passes it to [String] and to [parseFloat] and returns it to be shown as
    text; an inherited function or object is therefore kept as the text
    [String()] makes of it. *)
Definition member (o : JSRecord) (k : jsval) : jsval :=
  match o !! String_ k with
  | Some v => v
  | None =>
      match inherited (String_ k) with
      | Some text => VStr text
      | None => VUndefined
      end
  end.

(** One entry of a rule's [conditions] array. *)
Module Condition.
Record t : Type := mk
  { field : jsval; source : jsval; op : jsval; value : jsval }.
End Condition.

(** The object [checkOneCondition] returns. *)
Module ConditionResult.
Record t : Type := mk
  { field : jsval; op : jsval; value : jsval;
    actual : jsval; pass : bool; source : jsval }.
End ConditionResult.

Module Rule.
Record t : Type := mk
  { rule_id : jsval; name : jsval; severity : jsval; action : jsval;
    conditions : list Condition.t }.
End Rule.

(** The object [checkOneRule] returns. *)
Module RuleResult.
Record t : Type := mk
  { pass : bool; results : list ConditionResult.t }.
End RuleResult.

(** One entry of the array [checkAllRules] returns. *)
Module RuleEntry.
Record t : Type := mk
  { rule : Rule.t; pass : bool; results : list ConditionResult.t }.
End RuleEntry.

(* ===================================================================== *)
(** ** The module-level variables and the monad that threads them *)
(* ===================================================================== *)

Record Globals : Type := mkGlobals
  { selectedRule : option Rule.t;
    selectedTx : option JSRecord;
    filterMode : string;
    stepIndex : Z;
    transactions : list JSRecord;
    featureVectors : gmap string JSRecord;
    rules : list Rule.t }.

(** The values the variables are declared with. *)
Definition initial : Globals :=
  {| selectedRule := None; selectedTx := None; filterMode := "all";
     stepIndex := -1; transactions := []; featureVectors := ∅; rules := [] |}.

Definition M (A : Type) : Type := Globals -> A * Globals.

Definition ret {A : Type} (a : A) : M A := fun g => (a, g).

Definition bind {A B : Type} (m : M A) (k : A -> M B) : M B :=
  fun g => let '(a, g') := m g in k a g'.

Definition read {A : Type} (proj : Globals -> A) : M A := fun g => (proj g, g).

Definition write (upd : Globals -> Globals) : M unit := fun g => (tt, upd g).

Notation "'do' x <- m ; k" := (bind m (fun x => k))
  (at level 10, x name, m at level 100, k at level 200).

(** The part of [loadData] that stores the three parsed files: the feature
    vectors are indexed by transaction id, the first rule is selected.  (An
    item whose id is [__proto__] is filed like any other here; in the browser
    the assignment of line 41 makes it the prototype of the index instead.) *)
Fixpoint indexFeatureVectors (fvData : list JSRecord) : M unit :=
  match fvData with
  | [] => ret tt
  | item :: rest =>
      do _ <- write (fun g =>
                mkGlobals (selectedRule g) (selectedTx g) (filterMode g)
                  (stepIndex g) (transactions g)
                  (<[ String_ (get item (VStr "transaction_id")) := item ]>
                     (featureVectors g))
                  (rules g));
      indexFeatureVectors rest
  end.

Definition loadData (txData fvData : list JSRecord) (rulesData : list Rule.t) : M unit :=
  do _ <- write (fun g =>
            mkGlobals (selectedRule g) (selectedTx g) (filterMode g)
              (stepIndex g) txData (featureVectors g) (rules g));
  do _ <- indexFeatureVectors fvData;
  do _ <- write (fun g =>
            mkGlobals (selectedRule g) (selectedTx g) (filterMode g)
              (stepIndex g) (transactions g) (featureVectors g) rulesData);
  write (fun g =>
    mkGlobals (head (rules g)) (selectedTx g) (filterMode g)
      (stepIndex g) (transactions g) (featureVectors g) (rules g)).

(* ===================================================================== *)
(** ** Checking rules *)
(* ===================================================================== *)

(** Lines 63-73 of [checkOneCondition]: the value the condition looks at.
    [featureVector] is [None] when the caller passes [undefined]. *)
Definition actualValueOf (condition : Condition.t) (transaction : JSRecord)
    (featureVector : option JSRecord) : jsval :=
  if strict_eq (Condition.source condition) (VStr "raw")
  then member transaction (Condition.field condition)
  else
    match featureVector with
    | Some fv => member fv (Condition.field condition)
    | None => VNull
    end.

(** Lines 85-113: the chain of tests on [condition.op]. *)
Definition passOf (condition : Condition.t) (actualValue : jsval) : bool :=
  let actualNumber := parseFloat actualValue in
  let conditionNumber := parseFloat (Condition.value condition) in
  let op := Condition.op condition in
  if strict_eq op (VStr "==") then
    String.eqb (String_ actualValue) (String_ (Condition.value condition))
  else if strict_eq op (VStr "!=") then
    negb (String.eqb (String_ actualValue) (String_ (Condition.value condition)))
  else if strict_eq op (VStr ">") then Number.gt actualNumber conditionNumber
  else if strict_eq op (VStr "<") then Number.lt actualNumber conditionNumber
  else if strict_eq op (VStr ">=") then Number.ge actualNumber conditionNumber
  else if strict_eq op (VStr "<=") then Number.le actualNumber conditionNumber
  else if strict_eq op (VStr "contains") then
    let lowerActual := Text.toLowerCase (String_ actualValue) in
    let lowerCondition := Text.toLowerCase (String_ (Condition.value condition)) in
    Text.includes lowerActual lowerCondition
  else if strict_eq op (VStr "out_of_hours") then
    Number.ge actualNumber (Number.of_Z 22) || Number.le actualNumber (Number.of_Z 5)
  else false.

Definition checkOneCondition (condition : Condition.t) (transaction : JSRecord)
    (featureVector : option JSRecord) : ConditionResult.t :=
  let actualValue := actualValueOf condition transaction featureVector in
  if is_missing actualValue then
    {| ConditionResult.field := Condition.field condition;
       ConditionResult.op := Condition.op condition;
       ConditionResult.value := Condition.value condition;
       ConditionResult.actual := VStr "NOT FOUND";
       ConditionResult.pass := false;
       ConditionResult.source := Condition.source condition |}
  else
    {| ConditionResult.field := Condition.field condition;
       ConditionResult.op := Condition.op condition;
       ConditionResult.value := Condition.value condition;
       ConditionResult.actual := actualValue;
       ConditionResult.pass := passOf condition actualValue;
       ConditionResult.source := Condition.source condition |}.

(** The first loop of [checkOneRule]: every condition is checked and its
    result pushed on [conditionResults]. *)
Fixpoint checkConditions (conditions : list Condition.t) (transaction : JSRecord)
    (featureVector : option JSRecord) (conditionResults : list ConditionResult.t)
    : list ConditionResult.t :=
  match conditions with
  | [] => conditionResults
  | condition :: rest =>
      let result := checkOneCondition condition transaction featureVector in
      checkConditions rest transaction featureVector (conditionResults ++ [result])
  end.

(** The second loop: [allPassed] starts [true] and the scan stops at the
    first result whose [pass] is [false]. *)
Fixpoint allPassed (conditionResults : list ConditionResult.t) : bool :=
  match conditionResults with
  | [] => true
  | result :: rest =>
      if Bool.eqb (ConditionResult.pass result) false then false
      else allPassed rest
  end.

(** [checkOneRule].  [featureVectors[id]] is the vector filed under the id
    of the transaction.  An id under which no vector is filed and which names
    a member of [Object.prototype] (see [inherited]) finds that member in
    the browser; this case is left out, and the statements that rest on a
    vector being absent are made for the other ids. *)
Definition checkOneRule (rule : Rule.t) (transaction : JSRecord) : M RuleResult.t :=
  do fvs <- read featureVectors;
  let featureVector := fvs !! String_ (get transaction (VStr "transaction_id")) in
  let conditionResults :=
    checkConditions (Rule.conditions rule) transaction featureVector [] in
  ret {| RuleResult.pass := allPassed conditionResults;
         RuleResult.results := conditionResults |}.

(** The loop of [checkAllRules] over the rules still to visit. *)
Fixpoint checkRules (todo : list Rule.t) (transaction : JSRecord)
    (allResults : list RuleEntry.t) : M (list RuleEntry.t) :=
  match todo with
  | [] => ret allResults
  | rule :: rest =>
      do result <- checkOneRule rule transaction;
      checkRules rest transaction
        (allResults ++ [ {| RuleEntry.rule := rule;
                            RuleEntry.pass := RuleResult.pass result;
                            RuleEntry.results := RuleResult.results result |} ])
  end.

Definition checkAllRules (transaction : JSRecord) : M (list RuleEntry.t) :=
  do rs <- read rules;
  checkRules rs transaction [].

(* ===================================================================== *)
(** ** Hit rates ([renderRules] and [renderStats]) *)
(* ===================================================================== *)

(** [Math.round((count / total) * 100)] on two array lengths or counters. *)
Definition percentOf (count total : Z) : spec_float :=
  Number.round
    (Number.mul (Number.div (Number.of_Z count) (Number.of_Z total))
                (Number.of_Z 100)).

(** [renderRules], lines 181-187: count the transactions the rule fires on.
    The body of the loop assigns neither [transactions] nor its elements, so
    the loop runs over the array as it is read on entry. *)
Fixpoint countHits (rule : Rule.t) (todo : list JSRecord) (hitCount : Z) : M Z :=
  match todo with
  | [] => ret hitCount
  | tx :: rest =>
      do result <- checkOneRule rule tx;
      countHits rule rest
        (if Bool.eqb (RuleResult.pass result) true then hitCount + 1 else hitCount)
  end.

(** [renderRules], lines 181-189: the pair [(hitCount, hitPercent)] shown on
    the card of [rule]. *)
Definition renderRulesHits (rule : Rule.t) : M (Z * spec_float) :=
  do txs <- read transactions;
  do hitCount <- countHits rule txs 0;
  do txs' <- read transactions;
  ret (hitCount, percentOf hitCount (Z.of_nat (length txs'))).

(** [renderStats], lines 715-721: collect the transactions the rule flags. *)
Fixpoint collectFlagged (rule : Rule.t) (todo : list JSRecord)
    (flaggedTransactions : list JSRecord) : M (list JSRecord) :=
  match todo with
  | [] => ret flaggedTransactions
  | tx :: rest =>
      do result <- checkOneRule rule tx;
      collectFlagged rule rest
        (if Bool.eqb (RuleResult.pass result) true
         then flaggedTransactions ++ [tx] else flaggedTransactions)
  end.

(** [renderStats], lines 715-723: the flagged transactions and the hit rate
    shown on the card of [rule]. *)
Definition renderStatsHits (rule : Rule.t) : M (list JSRecord * spec_float) :=
  do txs <- read transactions;
  do flaggedTransactions <- collectFlagged rule txs [];
  do txs' <- read transactions;
  ret (flaggedTransactions,
       percentOf (Z.of_nat (length flaggedTransactions)) (Z.of_nat (length txs'))).

(** Whether [rule] fires on [tx] with the globals [g]. *)
Definition fires (g : Globals) (rule : Rule.t) (tx : JSRecord) : bool :=
  RuleResult.pass (fst (checkOneRule rule tx g)).

(** The hit percentage in the words of the specification,
    [round(100 * passCount / totalCount)]: the quotient rounded to the
    nearest integer, a half going up, computed over the integers. *)
Definition specHitPercent (passCount totalCount : Z) : Z :=
  (200 * passCount + totalCount) / (2 * totalCount).

(** Equality of numbers as data (unlike [Number.eq], it tells the two zeros
    apart and identifies NaN with itself) is decidable. *)
#[local] Instance spec_float_eq_dec : EqDecision spec_float.
Proof. solve_decision. Defined.

(* ===================================================================== *)
(** ** Concrete rules and records *)
(* ===================================================================== *)

(** A record with the single member [field]. *)
Definition with_field (v : jsval) : JSRecord := {[ "field" := v ]}.

(** A raw condition on a field named like the inherited [constructor]. *)
Definition constructor_differs : Condition.t :=
  {| Condition.field := VStr "constructor"; Condition.source := VStr "raw";
     Condition.op := VStr "!="; Condition.value := VStr "x" |}.

Definition tx_T1 : JSRecord :=
  {[ "transaction_id" := VStr "T1"; "amount" := VNum (Number.of_Z 1500) ]}.

Definition tx_T2 : JSRecord :=
  {[ "transaction_id" := VStr "T2"; "amount" := VNum (Number.of_Z 500) ]}.

Definition fv_T1 : JSRecord :=
  {[ "transaction_id" := VStr "T1"; "txn_count_1h" := VNum (Number.of_Z 7) ]}.

Definition velocity_derived : Condition.t :=
  Condition.mk (VStr "txn_count_1h") (VStr "derived") (VStr ">") (VNum (Number.of_Z 3)).

Definition velocity_computed : Condition.t :=
  Condition.mk (VStr "txn_count_1h") (VStr "computed") (VStr ">") (VNum (Number.of_Z 3)).

Definition greater_than_abc : Condition.t :=
  Condition.mk (VStr "field") (VStr "raw") (VStr ">") (VStr "abc").

Definition equals_5 : Condition.t :=
  Condition.mk (VStr "field") (VStr "raw") (VStr "==") (VStr "5").

Definition out_of_hours : Condition.t :=
  Condition.mk (VStr "field") (VStr "raw") (VStr "out_of_hours") VUndefined.

Definition starts_with : Condition.t :=
  Condition.mk (VStr "field") (VStr "raw") (VStr "startsWith") (VStr "a").

(** Forty transactions, [T0] to [T39]; the first twenty-three are for 1500,
    the others for 500. *)
Definition tx_of (i : Z) : JSRecord :=
  {[ "transaction_id" := VStr ("T" ++ Number.digits_of i);
     "amount" := VNum (Number.of_Z (if i <? 23 then 1500 else 500)) ]}.

Definition forty : list JSRecord := map (fun i => tx_of (Z.of_nat i)) (seq 0 40).

Definition over_1000 : Rule.t :=
  {| Rule.rule_id := VStr "R1"; Rule.name := VStr "Large amount";
     Rule.severity := VStr "High"; Rule.action := VStr "REVIEW";
     Rule.conditions :=
       [ Condition.mk (VStr "amount") (VStr "raw") (VStr ">") (VStr "1000") ] |}.

Definition loaded_forty : Globals := snd (loadData forty [] [over_1000] initial).

(* ===================================================================== *)
(** ** More built-ins: truthiness, [||], [+], method calls, [toFixed] *)
(* ===================================================================== *)

(** How a call ends: with a value, or with a [TypeError] thrown (the only
    exception the modelled code can raise: a method called on a value that
    does not have it). *)
Inductive completion (A : Type) : Type :=
  | Normal (a : A)
  | TypeError.

Arguments Normal {A} a.
Arguments TypeError {A}.

Definition after {A B : Type} (c : completion A) (k : A -> completion B) : completion B :=
  match c with
  | Normal a => k a
  | TypeError => TypeError
  end.

(** The conversion to a boolean made by [if (v)], [!v], [v && ...] and
    [v || ...]. *)
Definition truthy (v : jsval) : bool :=
  match v with
  | VUndefined => false
  | VNull => false
  | VBool b => b
  | VNum (S754_zero _) => false
  | VNum S754_nan => false
  | VNum _ => true
  | VStr s => negb (String.eqb s "")
  end.

(** [a || b]. *)
Definition or_else (a b : jsval) : jsval := if truthy a then a else b.

(** [v.toLowerCase()]: only strings have the method. *)
Definition toLowerCase_of (v : jsval) : completion string :=
  match v with
  | VStr s => Normal (Text.toLowerCase s)
  | _ => TypeError
  end.

(** [v.substring(5, 16)]: the characters at positions 5 to 15, as far as
    the string goes. *)
Definition substring_5_16_of (v : jsval) : completion string :=
  match v with
  | VStr s => Normal (substring 5 11 s)
  | _ => TypeError
  end.

(** The number a value that is not a string converts to. *)
Definition number_of_nonstring (v : jsval) : option spec_float :=
  match v with
  | VUndefined => Some Number.NaN
  | VNull => Some (S754_zero false)
  | VBool b => Some (if b then Number.of_Z 1 else S754_zero false)
  | VNum x => Some x
  | VStr _ => None
  end.

(** [a + b]: concatenation as soon as one side is a string, the sum of the
    two numbers otherwise. *)
Definition js_add (a b : jsval) : jsval :=
  match number_of_nonstring a, number_of_nonstring b with
  | Some x, Some y => VNum (SFadd Number.prec Number.emax x y)
  | _, _ => VStr (String_ a ++ String_ b)
  end.

(** [x.toFixed(0)] on a number: the nearest integer, a half going away from
    zero, in decimal; numbers from 10^21 on print as [String(x)]. *)
Definition toFixed0 (x : spec_float) : string :=
  match x with
  | S754_finite s m e =>
      let a := Number.num m e in
      let b := Number.den e in
      (if s then "-" else "") ++
      (if 10 ^ 21 * b <=? a then Number.toString (S754_finite false m e)
       else Number.digits_of ((2 * a + b) / (2 * b)))
  | S754_zero _ => "0"
  | _ => Number.toString x
  end.

(** [v.toFixed(0)]: only numbers have the method. *)
Definition toFixed0_of (v : jsval) : completion string :=
  match v with
  | VNum x => Normal (toFixed0 x)
  | _ => TypeError
  end.

(** The key under which an object indexed by [tx.transaction_id] files the
    transaction. *)
Definition idKey (tx : JSRecord) : string :=
  String_ (get tx (VStr "transaction_id")).

(* ===================================================================== *)
(** ** What the views compute *)
(* ===================================================================== *)

(** The loops that count the results with [pass === true]
    ([renderTable], lines 323-328; [renderInspector], lines 474-479). *)
Fixpoint countPassed (results : list ConditionResult.t) (passedCount : Z) : Z :=
  match results with
  | [] => passedCount
  | result :: rest =>
      countPassed rest
        (if Bool.eqb (ConditionResult.pass result) true then passedCount + 1
         else passedCount)
  end.

(** *** [renderRules] *)

(** The colour picked for a severity: three assignments in a row, each
    under its own test. *)
Definition sevColorOf (severity : jsval) : string :=
  let sevColor := "var(--green)" in
  let sevColor := if strict_eq severity (VStr "Critical") then "var(--red)" else sevColor in
  let sevColor := if strict_eq severity (VStr "High") then "#e74c3c" else sevColor in
  let sevColor := if strict_eq severity (VStr "Medium") then "var(--yellow)" else sevColor in
  sevColor.

(** What a card of the rule list shows. *)
Module RuleCard.
Record t : Type := mk
  { rule : Rule.t; hitCount : Z; hitPercent : spec_float; sevColor : string;
    isActive : bool; sevClass : string }.
End RuleCard.

(** The loop of [renderRules] over the rules still to show; the card of a
    rule needs [rule.severity.toLowerCase()]. *)
Fixpoint renderRuleCards (todo : list Rule.t) (cards : list RuleCard.t)
    : M (completion (list RuleCard.t)) :=
  match todo with
  | [] => ret (Normal cards)
  | rule :: rest =>
      do hits <- renderRulesHits rule;
      do sr <- read selectedRule;
      let isActive :=
        match sr with
        | Some s => strict_eq (Rule.rule_id s) (Rule.rule_id rule)
        | None => false
        end in
      match toLowerCase_of (Rule.severity rule) with
      | TypeError => ret TypeError
      | Normal lower =>
          renderRuleCards rest
            (cards ++ [ {| RuleCard.rule := rule;
                           RuleCard.hitCount := fst hits;
                           RuleCard.hitPercent := snd hits;
                           RuleCard.sevColor := sevColorOf (Rule.severity rule);
                           RuleCard.isActive := isActive;
                           RuleCard.sevClass := "sev-" ++ lower |} ])
      end
  end.

Definition renderRules : M (completion (list RuleCard.t)) :=
  do rs <- read rules;
  renderRuleCards rs [].

(** *** [renderTable] *)

(** Lines 247-257: keep the transactions one of whose four texts includes
    the search text.  The four tests are all made before any is used. *)
Fixpoint searchLoop (searchText : string) (todo filtered : list JSRecord)
    : completion (list JSRecord) :=
  match todo with
  | [] => Normal filtered
  | tx :: rest =>
      after (toLowerCase_of (get tx (VStr "transaction_id"))) (fun id =>
      after (toLowerCase_of (or_else (get tx (VStr "merchant_description")) (VStr ""))) (fun merchant =>
      after (toLowerCase_of (or_else (get tx (VStr "transaction_type")) (VStr ""))) (fun type =>
      after (toLowerCase_of (or_else (get tx (VStr "merchant_country")) (VStr ""))) (fun country =>
        let idMatch := Text.includes id searchText in
        let merchantMatch := Text.includes merchant searchText in
        let typeMatch := Text.includes type searchText in
        let countryMatch := Text.includes country searchText in
        if idMatch || merchantMatch || typeMatch || countryMatch
        then searchLoop searchText rest (filtered ++ [tx])
        else searchLoop searchText rest filtered))))
  end.

(** Lines 262-270: the object [evaluationResults], from transaction ids to
    the result of the selected rule, or to [null] when no rule is selected. *)
Fixpoint evaluateAll (todo : list JSRecord)
    (evaluationResults : gmap string (option RuleResult.t))
    : M (gmap string (option RuleResult.t)) :=
  match todo with
  | [] => ret evaluationResults
  | tx :: rest =>
      do sr <- read selectedRule;
      match sr with
      | Some rule =>
          do result <- checkOneRule rule tx;
          evaluateAll rest (<[ idKey tx := Some result ]> evaluationResults)
      | None =>
          evaluateAll rest (<[ idKey tx := None ]> evaluationResults)
      end
  end.

(** [evaluationResults[tx.transaction_id]] where it is tested for truth:
    the result filed under the id, if there is one and it is not [null]. *)
Definition evaluationOf (evaluationResults : gmap string (option RuleResult.t))
    (tx : JSRecord) : option RuleResult.t :=
  match evaluationResults !! idKey tx with
  | Some (Some result) => Some result
  | _ => None
  end.

(** [evaluationResults[id] && evaluationResults[id].pass === true]. *)
Definition marksPass (evaluationResults : gmap string (option RuleResult.t))
    (tx : JSRecord) : bool :=
  match evaluationOf evaluationResults tx with
  | Some result => Bool.eqb (RuleResult.pass result) true
  | None => false
  end.

(** [!evaluationResults[id] || evaluationResults[id].pass === false]. *)
Definition marksFail (evaluationResults : gmap string (option RuleResult.t))
    (tx : JSRecord) : bool :=
  match evaluationOf evaluationResults tx with
  | Some result => Bool.eqb (RuleResult.pass result) false
  | None => true
  end.

(** Lines 275-281 and 286-292: the two filter loops, over the test [keep]. *)
Fixpoint filterLoop (keep : JSRecord -> bool) (todo filtered : list JSRecord)
    : list JSRecord :=
  match todo with
  | [] => filtered
  | tx :: rest =>
      filterLoop keep rest (if keep tx then filtered ++ [tx] else filtered)
  end.

(** Lines 296-305: the two counters of the header. *)
Fixpoint countLoop (evaluationResults : gmap string (option RuleResult.t))
    (todo : list JSRecord) (passCount failCount : Z) : Z * Z :=
  match todo with
  | [] => (passCount, failCount)
  | tx :: rest =>
      if marksPass evaluationResults tx
      then countLoop evaluationResults rest (passCount + 1) failCount
      else countLoop evaluationResults rest passCount (failCount + 1)
  end.

(** The status shown in the last cell of a row. *)
Inductive Pill : Type :=
  | NoPill
  | PillFires
  | PillPartial (passedCount totalCount : Z)
  | PillMiss.

(** Lines 320-338. *)
Definition pillOf (evalResult : option RuleResult.t) : Pill :=
  match evalResult with
  | None => NoPill
  | Some result =>
      let passedCount := countPassed (RuleResult.results result) 0 in
      let totalCount := Z.of_nat (length (RuleResult.results result)) in
      if Bool.eqb (RuleResult.pass result) true then PillFires
      else if 0 <? passedCount then PillPartial passedCount totalCount
      else PillMiss
  end.

Module TableRow.
Record t : Type := mk
  { tx : JSRecord; statusPill : Pill; shortDate : string; selected : bool }.
End TableRow.

Module Table.
Record t : Type := mk
  { passCount : Z; failCount : Z; total : Z; rows : list TableRow.t }.
End Table.

(** Lines 315-378: one row for each transaction to show; a date that is
    there is cut with [substring]. *)
Fixpoint tableRows (evaluationResults : gmap string (option RuleResult.t))
    (selection : option JSRecord) (todo : list JSRecord) (rows : list TableRow.t)
    : completion (list TableRow.t) :=
  match todo with
  | [] => Normal rows
  | tx :: rest =>
      let statusPill := pillOf (evaluationOf evaluationResults tx) in
      after (if truthy (get tx (VStr "txn_date_time"))
             then substring_5_16_of (get tx (VStr "txn_date_time"))
             else Normal "") (fun shortDate =>
        let selected :=
          match selection with
          | Some s => strict_eq (get s (VStr "transaction_id"))
                                (get tx (VStr "transaction_id"))
          | None => false
          end in
        tableRows evaluationResults selection rest
          (rows ++ [ TableRow.mk tx statusPill shortDate selected ]))
  end.

(** [renderTable]; [searchInput] is the text of the search box.  The first
    loop copies [transactions] into [transactionsToShow]. *)
Definition renderTable (searchInput : string) : M (completion Table.t) :=
  do txs <- read transactions;
  let transactionsToShow := filterLoop (fun _ => true) txs [] in
  let searchText := Text.toLowerCase searchInput in
  match (if negb (String.eqb searchText "")
         then searchLoop searchText transactionsToShow []
         else Normal transactionsToShow) with
  | TypeError => ret TypeError
  | Normal transactionsToShow =>
      do evaluationResults <- evaluateAll txs ∅;
      do mode <- read filterMode;
      let transactionsToShow :=
        if String.eqb mode "pass"
        then filterLoop (marksPass evaluationResults) transactionsToShow []
        else transactionsToShow in
      let transactionsToShow :=
        if String.eqb mode "fail"
        then filterLoop (marksFail evaluationResults) transactionsToShow []
        else transactionsToShow in
      let counts := countLoop evaluationResults txs 0 0 in
      do selection <- read selectedTx;
      match tableRows evaluationResults selection transactionsToShow [] with
      | TypeError => ret TypeError
      | Normal rows =>
          ret (Normal {| Table.passCount := fst counts;
                         Table.failCount := snd counts;
                         Table.total := Z.of_nat (length txs);
                         Table.rows := rows |})
      end
  end.

(** *** [renderInspector] *)

Module InspectorRow.
Record t : Type := mk
  { result : ConditionResult.t; fromTransactions : bool;
    stepActive : bool; passed : bool }.
End InspectorRow.

(** What is shown for the selected rule. *)
Module Evaluation.
Record t : Type := mk
  { rows : list InspectorRow.t; passedCount : Z; totalCount : Z;
    fires : bool; prevDisabled : bool; nextDisabled : bool }.
End Evaluation.

(** The values the inspector is built from (the grids of feature and raw
    fields are left out); [ruleBadge] is the value assigned to the badge. *)
Module Inspector.
Record t : Type := mk
  { ruleBadge : jsval; featureVector : option JSRecord;
    evaluation : option Evaluation.t; allEvaluations : list RuleEntry.t }.
End Inspector.

(** Lines 429-471: the row of the [i]-th result and of those after it. *)
Fixpoint inspectorRows (results : list ConditionResult.t) (i step : Z)
    : list InspectorRow.t :=
  match results with
  | [] => []
  | result :: rest =>
      {| InspectorRow.result := result;
         InspectorRow.fromTransactions :=
           strict_eq (ConditionResult.source result) (VStr "raw");
         InspectorRow.stepActive := (step =? i);
         InspectorRow.passed := Bool.eqb (ConditionResult.pass result) true |}
      :: inspectorRows rest (i + 1) step
  end.

(** [renderInspector]: [None] is the empty state shown when no transaction
    is selected. *)
Definition renderInspector : M (option Inspector.t) :=
  do selection <- read selectedTx;
  match selection with
  | None => ret None
  | Some tx =>
      do sr <- read selectedRule;
      let ruleBadge :=
        match sr with
        | Some rule => Rule.rule_id rule
        | None => VStr "no rule"
        end in
      do fvs <- read featureVectors;
      let featureVector := fvs !! idKey tx in
      do activeEvaluation <-
        match sr with
        | Some rule => do result <- checkOneRule rule tx; ret (Some result)
        | None => ret None
        end;
      do allEvaluations <- checkAllRules tx;
      do step <- read stepIndex;
      let evaluation :=
        match sr, activeEvaluation with
        | Some rule, Some active =>
            let passedCount := countPassed (RuleResult.results active) 0 in
            let totalCount := Z.of_nat (length (RuleResult.results active)) in
            Some {| Evaluation.rows := inspectorRows (RuleResult.results active) 0 step;
                    Evaluation.passedCount := passedCount;
                    Evaluation.totalCount := totalCount;
                    Evaluation.fires := Bool.eqb (RuleResult.pass active) true;
                    Evaluation.prevDisabled := (step <=? 0);
                    Evaluation.nextDisabled := (totalCount - 1 <=? step) |}
        | _, _ => None
        end in
      ret (Some {| Inspector.ruleBadge := ruleBadge;
                   Inspector.featureVector := featureVector;
                   Inspector.evaluation := evaluation;
                   Inspector.allEvaluations := allEvaluations |})
  end.

(** *** [renderMatrix] *)

Module MatrixRow.
Record t : Type := mk
  { id : string; cells : list bool; totalFires : Z }.
End MatrixRow.

(** Lines 664-667: the results of all the rules on [tx]. *)
Fixpoint matrixResults (todo : list Rule.t) (tx : JSRecord)
    (ruleResults : list RuleResult.t) : M (list RuleResult.t) :=
  match todo with
  | [] => ret ruleResults
  | rule :: rest =>
      do result <- checkOneRule rule tx;
      matrixResults rest tx (ruleResults ++ [result])
  end.

(** Lines 669-674. *)
Fixpoint countFires (ruleResults : list RuleResult.t) (totalFires : Z) : Z :=
  match ruleResults with
  | [] => totalFires
  | result :: rest =>
      countFires rest
        (if Bool.eqb (RuleResult.pass result) true then totalFires + 1 else totalFires)
  end.

(** Lines 678-684: a hit or a miss for each result. *)
Fixpoint matrixCells (ruleResults : list RuleResult.t) (cells : list bool) : list bool :=
  match ruleResults with
  | [] => cells
  | result :: rest =>
      matrixCells rest (cells ++ [Bool.eqb (RuleResult.pass result) true])
  end.

(** Lines 661-695: the rows of the matrix. *)
Fixpoint matrixRows (todo : list JSRecord) (rows : list MatrixRow.t)
    : M (list MatrixRow.t) :=
  match todo with
  | [] => ret rows
  | tx :: rest =>
      do rs <- read rules;
      do ruleResults <- matrixResults rs tx [];
      matrixRows rest
        (rows ++ [ {| MatrixRow.id := idKey tx;
                      MatrixRow.cells := matrixCells ruleResults [];
                      MatrixRow.totalFires := countFires ruleResults 0 |} ])
  end.

Definition renderMatrix : M (list MatrixRow.t) :=
  do txs <- read transactions;
  matrixRows txs [].

(** *** [renderStats] *)

Module StatCard.
Record t : Type := mk
  { rule : Rule.t; hitPercent : spec_float; flagged : Z;
    totalAmount : string; sevColor : string }.
End StatCard.

(** Lines 726-729: the amounts of the flagged transactions added up with
    [+], starting from the number 0. *)
Fixpoint addAmounts (flaggedTransactions : list JSRecord) (totalAmount : jsval) : jsval :=
  match flaggedTransactions with
  | [] => totalAmount
  | tx :: rest => addAmounts rest (js_add totalAmount (get tx (VStr "amount")))
  end.

(** The loop of [renderStats] over the rules still to show; the card needs
    [totalAmount.toFixed(0)]. *)
Fixpoint renderStatCards (todo : list Rule.t) (cards : list StatCard.t)
    : M (completion (list StatCard.t)) :=
  match todo with
  | [] => ret (Normal cards)
  | rule :: rest =>
      do stats <- renderStatsHits rule;
      let totalAmount := addAmounts (fst stats) (VNum (Number.of_Z 0)) in
      match toFixed0_of totalAmount with
      | TypeError => ret TypeError
      | Normal shown =>
          renderStatCards rest
            (cards ++ [ {| StatCard.rule := rule;
                           StatCard.hitPercent := snd stats;
                           StatCard.flagged := Z.of_nat (length (fst stats));
                           StatCard.totalAmount := shown;
                           StatCard.sevColor := sevColorOf (Rule.severity rule) |} ])
      end
  end.

Definition renderStats : M (completion (list StatCard.t)) :=
  do rs <- read rules;
  renderStatCards rs [].

(* ===================================================================== *)
(** ** The handlers *)
(* ===================================================================== *)

Definition set_selectedRule (r : option Rule.t) : M unit :=
  write (fun g => mkGlobals r (selectedTx g) (filterMode g) (stepIndex g)
                    (transactions g) (featureVectors g) (rules g)).

Definition set_selectedTx (t : option JSRecord) : M unit :=
  write (fun g => mkGlobals (selectedRule g) t (filterMode g) (stepIndex g)
                    (transactions g) (featureVectors g) (rules g)).

Definition set_filterMode (mode : string) : M unit :=
  write (fun g => mkGlobals (selectedRule g) (selectedTx g) mode (stepIndex g)
                    (transactions g) (featureVectors g) (rules g)).

Definition set_stepIndex (i : Z) : M unit :=
  write (fun g => mkGlobals (selectedRule g) (selectedTx g) (filterMode g) i
                    (transactions g) (featureVectors g) (rules g)).

(** [renderAll]: the three views in turn; an exception in one ends it. *)
Definition renderAll (searchInput : string) : M (completion unit) :=
  do cards <- renderRules;
  match cards with
  | TypeError => ret TypeError
  | Normal _ =>
      do table <- renderTable searchInput;
      match table with
      | TypeError => ret TypeError
      | Normal _ => do _ <- renderInspector; ret (Normal tt)
      end
  end.

Definition goToNextStep : M unit :=
  do sr <- read selectedRule;
  do selection <- read selectedTx;
  match sr, selection with
  | Some rule, Some _ =>
      let lastIndex := Z.of_nat (length (Rule.conditions rule)) - 1 in
      do step <- read stepIndex;
      do _ <- (if step <? lastIndex then set_stepIndex (step + 1) else ret tt);
      do _ <- renderInspector;
      ret tt
  | _, _ => ret tt
  end.

Definition goToPrevStep : M unit :=
  do sr <- read selectedRule;
  do selection <- read selectedTx;
  match sr, selection with
  | Some _, Some _ =>
      do step <- read stepIndex;
      do _ <- (if 0 <? step then set_stepIndex (step - 1) else ret tt);
      do _ <- renderInspector;
      ret tt
  | _, _ => ret tt
  end.

Definition resetStepDebugger : M unit :=
  do _ <- set_stepIndex (-1);
  do _ <- renderInspector;
  ret tt.

(** The loop of [switchToRule]: the first rule with the id is selected. *)
Fixpoint selectById (todo : list Rule.t) (ruleId : jsval) : M unit :=
  match todo with
  | [] => ret tt
  | rule :: rest =>
      if strict_eq (Rule.rule_id rule) ruleId
      then set_selectedRule (Some rule)
      else selectById rest ruleId
  end.

Definition switchToRule (searchInput : string) (ruleId : jsval) : M (completion unit) :=
  do rs <- read rules;
  do _ <- selectById rs ruleId;
  do _ <- set_stepIndex (-1);
  renderAll searchInput.

(** [setFilter] for one of the three filter buttons. *)
Definition setFilter (searchInput : string) (mode : string) : M (completion Table.t) :=
  do _ <- set_filterMode mode;
  renderTable searchInput.

(** The click handler [renderRules] puts on the card of [rule]. *)
Definition cardClick (searchInput : string) (rule : Rule.t) : M (completion unit) :=
  do _ <- set_selectedRule (Some rule);
  do _ <- set_selectedTx None;
  do _ <- set_stepIndex (-1);
  renderAll searchInput.

(** The click handler [renderTable] puts on the row of [tx]. *)
Definition rowClick (tx : JSRecord) : M unit :=
  do _ <- set_selectedTx (Some tx);
  do _ <- set_stepIndex (-1);
  do _ <- renderInspector;
  ret tt.

(** [switchView]: the matrix and the statistics are drawn when shown. *)
Definition switchView (view : jsval) : M (completion unit) :=
  do _ <- (if strict_eq view (VStr "matrix") then do _ <- renderMatrix; ret tt else ret tt);
  if strict_eq view (VStr "stats")
  then do cards <- renderStats;
       ret (match cards with Normal _ => Normal tt | TypeError => TypeError end)
  else ret (Normal tt).

(** What the user can do once the data is loaded: a card and a row are
    clicked by their position in [rules] and [transactions]. *)
Inductive Action : Type :=
  | Next
  | Prev
  | Reset
  | SwitchToRule (ruleId : jsval)
  | SetFilter (mode : string)
  | ClickCard (i : nat)
  | ClickRow (i : nat)
  | SwitchView (view : jsval).

(** The globals after the handler of an action has run, with [searchInput]
    in the search box. *)
Definition handle (searchInput : string) (a : Action) (g : Globals) : Globals :=
  match a with
  | Next => snd (goToNextStep g)
  | Prev => snd (goToPrevStep g)
  | Reset => snd (resetStepDebugger g)
  | SwitchToRule ruleId => snd (switchToRule searchInput ruleId g)
  | SetFilter mode => snd (setFilter searchInput mode g)
  | ClickCard i =>
      match nth_error (rules g) i with
      | Some rule => snd (cardClick searchInput rule g)
      | None => g
      end
  | ClickRow i =>
      match nth_error (transactions g) i with
      | Some tx => snd (rowClick tx g)
      | None => g
      end
  | SwitchView view => snd (switchView view g)
  end.

(** The states the page goes through: the data is loaded into the initial
    globals, then actions follow. *)
Inductive Reachable : Globals -> Prop :=
  | reach_load (txData fvData : list JSRecord) (rulesData : list Rule.t) :
      Reachable (snd (loadData txData fvData rulesData initial))
  | reach_step (searchInput : string) (a : Action) (g : Globals) :
      Reachable g -> Reachable (handle searchInput a g).

(* ===================================================================== *)
(** ** Vocabulary of the statements *)
(* ===================================================================== *)

(** The globals with another step index, and with another filter mode. *)
Definition with_step (i : Z) (g : Globals) : Globals :=
  mkGlobals (selectedRule g) (selectedTx g) (filterMode g) i
    (transactions g) (featureVectors g) (rules g).

Definition with_filter (mode : string) (g : Globals) : Globals :=
  mkGlobals (selectedRule g) (selectedTx g) mode (stepIndex g)
    (transactions g) (featureVectors g) (rules g).

(** What holds of the globals in every state of the page: the selected rule
    and the selected transaction are loaded ones, there is a selected rule
    unless no rule is loaded, the step index is -1 or the index of a
    condition of the selected rule (and -1 unless both a rule and a
    transaction are selected), and every feature vector is filed under its
    own transaction id. *)
Definition Consistent (g : Globals) : Prop :=
  (selectedRule g = None -> rules g = [])
  /\ (forall rule, selectedRule g = Some rule -> In rule (rules g))
  /\ (forall tx, selectedTx g = Some tx -> In tx (transactions g))
  /\ -1 <= stepIndex g
  /\ match selectedRule g, selectedTx g with
     | Some rule, Some _ => stepIndex g < Z.of_nat (length (Rule.conditions rule))
     | _, _ => stepIndex g = -1
     end
  /\ (forall k v, featureVectors g !! k = Some v -> idKey v = k).

Definition isString (v : jsval) : bool :=
  match v with VStr _ => true | _ => false end.

(** A string, or a value that [||] replaces by its right operand. *)
Definition stringOrFalsy (v : jsval) : bool :=
  match v with VStr _ => true | _ => negb (truthy v) end.

(** The transactions the search loop can go over: the id is a string and
    the three other texts are strings or falsy. *)
Definition searchable (tx : JSRecord) : bool :=
  isString (get tx (VStr "transaction_id"))
  && stringOrFalsy (get tx (VStr "merchant_description"))
  && stringOrFalsy (get tx (VStr "transaction_type"))
  && stringOrFalsy (get tx (VStr "merchant_country")).

(** The transactions whose date the table can cut. *)
Definition datable (tx : JSRecord) : bool :=
  stringOrFalsy (get tx (VStr "txn_date_time")).

(** The lower-case text of a string, the empty text of anything else. *)
Definition textOf (v : jsval) : string :=
  match v with VStr s => Text.toLowerCase s | _ => "" end.

(** A value that is not a text with characters outside ASCII. *)
Definition plainText (v : jsval) : bool :=
  match v with VStr s => Text.is_ascii s | _ => true end.

(** The transactions whose four searched texts are ASCII. *)
Definition asciiTexts (tx : JSRecord) : bool :=
  plainText (get tx (VStr "transaction_id"))
  && plainText (get tx (VStr "merchant_description"))
  && plainText (get tx (VStr "transaction_type"))
  && plainText (get tx (VStr "merchant_country")).

Definition matchesSearch (searchText : string) (tx : JSRecord) : bool :=
  Text.includes (textOf (get tx (VStr "transaction_id"))) searchText
  || Text.includes (textOf (get tx (VStr "merchant_description"))) searchText
  || Text.includes (textOf (get tx (VStr "transaction_type"))) searchText
  || Text.includes (textOf (get tx (VStr "merchant_country"))) searchText.

(** The result of the selected rule on [tx], if a rule is selected. *)
Definition evaluationFor (g : Globals) (tx : JSRecord) : option RuleResult.t :=
  match selectedRule g with
  | Some rule => Some (fst (checkOneRule rule tx g))
  | None => None
  end.

(** The last transaction of [txs] filed under the key [k]. *)
Definition lastWithId (txs : list JSRecord) (k : string) : option JSRecord :=
  List.find (fun t => String.eqb (idKey t) k) (rev txs).

(** The row of the table for [tx]. *)
Definition rowOf (evaluationResults : gmap string (option RuleResult.t))
    (selection : option JSRecord) (tx : JSRecord) : TableRow.t :=
  TableRow.mk tx (pillOf (evaluationOf evaluationResults tx))
    (match get tx (VStr "txn_date_time") with VStr s => substring 5 11 s | _ => "" end)
    (match selection with
     | Some s => strict_eq (get s (VStr "transaction_id")) (get tx (VStr "transaction_id"))
     | None => false
     end).

Definition isFires (p : Pill) : bool :=
  match p with PillFires => true | _ => false end.

Definition sumZ (l : list Z) : Z := fold_right Z.add 0 l.

(** The row of the matrix for [tx]. *)
Definition matrixRowOf (g : Globals) (tx : JSRecord) : MatrixRow.t :=
  let cells := map (fun rule => fires g rule tx) (rules g) in
  {| MatrixRow.id := idKey tx;
     MatrixRow.cells := cells;
     MatrixRow.totalFires := Z.of_nat (length (List.filter (fun b : bool => b) cells)) |}.

Definition amountOf (tx : JSRecord) : jsval := get tx (VStr "amount").

(** The total [renderStats] adds up for [rule]. *)
Definition totalOf (g : Globals) (rule : Rule.t) : jsval :=
  addAmounts (List.filter (fires g rule) (transactions g)) (VNum (Number.of_Z 0)).

Definition crashes (g : Globals) (rule : Rule.t) : bool := isString (totalOf g rule).

(** The cards of [rule] in the statistics and in the rule list. *)
Definition statCardOf (g : Globals) (rule : Rule.t) : StatCard.t :=
  {| StatCard.rule := rule;
     StatCard.hitPercent := snd (fst (renderStatsHits rule g));
     StatCard.flagged := Z.of_nat (length (fst (fst (renderStatsHits rule g))));
     StatCard.totalAmount :=
       match totalOf g rule with VNum x => toFixed0 x | _ => "" end;
     StatCard.sevColor := sevColorOf (Rule.severity rule) |}.

Definition ruleCardOf (g : Globals) (rule : Rule.t) : RuleCard.t :=
  {| RuleCard.rule := rule;
     RuleCard.hitCount := fst (fst (renderRulesHits rule g));
     RuleCard.hitPercent := snd (fst (renderRulesHits rule g));
     RuleCard.sevColor := sevColorOf (Rule.severity rule);
     RuleCard.isActive :=
       match selectedRule g with
       | Some s => strict_eq (Rule.rule_id s) (Rule.rule_id rule)
       | None => false
       end;
     RuleCard.sevClass := "sev-" ++ textOf (Rule.severity rule) |}.

(** *** More concrete records *)

(** Two transactions, a feature vector for the first, one rule. *)
Definition small : Globals :=
  snd (loadData [tx_T1; tx_T2] [fv_T1] [over_1000] initial).

(** A transaction whose id is the number 7, and one whose amount is the
    string "12.50". *)
Definition tx_numeric_id : JSRecord :=
  {[ "transaction_id" := VNum (Number.of_Z 7); "amount" := VNum (Number.of_Z 2000) ]}.

Definition tx_text_amount : JSRecord :=
  {[ "transaction_id" := VStr "T9"; "amount" := VStr "2000.50" ]}.

Definition fv_7 : JSRecord :=
  {[ "transaction_id" := VStr "7"; "txn_count_1h" := VNum (Number.of_Z 9) ]}.

Definition velocity_rule : Rule.t :=
  Rule.mk (VStr "R3") (VStr "Velocity") (VStr "Medium") (VStr "FLAG") [ velocity_derived ].

(** A rule with three conditions, of which [T1] fails the second. *)
Definition three_conditions : Rule.t :=
  Rule.mk (VStr "R2") (VStr "Mid-size amount") (VStr "Low") (VStr "FLAG")
    [ Condition.mk (VStr "amount") (VStr "raw") (VStr ">") (VStr "1000");
      Condition.mk (VStr "amount") (VStr "raw") (VStr "<") (VStr "1200");
      Condition.mk (VStr "transaction_id") (VStr "raw") (VStr "contains") (VStr "t") ].

(** Two rules loaded and the row of [T1] clicked. *)
Definition stepping : Globals :=
  handle "" (ClickRow 0)
    (snd (loadData [tx_T1; tx_T2] [fv_T1] [three_conditions; over_1000] initial)).

(** A transaction with a numeric id among the loaded ones. *)
Definition with_numeric_id : Globals :=
  snd (loadData [tx_T1; tx_numeric_id] [fv_7] [velocity_rule] initial).

Definition contains_mart : Condition.t :=
  Condition.mk (VStr "field") (VStr "raw") (VStr "contains") (VStr "MART").

(** A transaction with a text for amount among the loaded ones. *)
Definition with_text_amount : Globals :=
  snd (loadData [tx_T1; tx_text_amount] [] [over_1000] initial).

(* ===================================================================== *)
(** ** Basic facts about the built-ins *)
(* ===================================================================== *)

Lemma strict_eq_VStr (v : jsval) (s : string) :
  strict_eq v (VStr s) = true <-> v = VStr s.
Proof.
  destruct v as [| | b | x | s']; simpl; try (split; [discriminate | discriminate]).
  rewrite String.eqb_eq. split; [intros -> | intros [= ->]]; reflexivity.
Qed.

Lemma strict_eq_VStr_false (v : jsval) (s : string) :
  v <> VStr s -> strict_eq v (VStr s) = false.
Proof.
  intros Hne. destruct (strict_eq v (VStr s)) eqn:E; [|reflexivity].
  apply strict_eq_VStr in E. contradiction.
Qed.

Lemma is_missing_true (v : jsval) :
  is_missing v = true <-> v = VNull \/ v = VUndefined.
Proof.
  destruct v; simpl; split; intros H; try discriminate; auto;
    destruct H as [H | H]; discriminate.
Qed.

(** Every ordering test against NaN is false. *)
Lemma lt_NaN (x y : spec_float) :
  Number.isNaN x = true \/ Number.isNaN y = true -> Number.lt x y = false.
Proof.
  intros [H | H]; destruct x; destruct y; try discriminate; reflexivity.
Qed.

Lemma le_NaN (x y : spec_float) :
  Number.isNaN x = true \/ Number.isNaN y = true -> Number.le x y = false.
Proof.
  intros [H | H]; destruct x; destruct y; try discriminate; reflexivity.
Qed.

Lemma gt_NaN (x y : spec_float) :
  Number.isNaN x = true \/ Number.isNaN y = true -> Number.gt x y = false.
Proof. intros H. apply lt_NaN. tauto. Qed.

Lemma ge_NaN (x y : spec_float) :
  Number.isNaN x = true \/ Number.isNaN y = true -> Number.ge x y = false.
Proof. intros H. apply le_NaN. tauto. Qed.

Create HintDb nan.
#[local] Hint Resolve lt_NaN le_NaN gt_NaN ge_NaN : nan.

(* ===================================================================== *)
(** ** The state monad *)
(* ===================================================================== *)

Lemma checkOneRule_run (rule : Rule.t) (transaction : JSRecord) (g : Globals) :
  checkOneRule rule transaction g =
  (let conditionResults :=
     checkConditions (Rule.conditions rule) transaction
       (featureVectors g !! String_ (get transaction (VStr "transaction_id"))) [] in
   {| RuleResult.pass := allPassed conditionResults;
      RuleResult.results := conditionResults |}, g).
Proof. reflexivity. Qed.

(* ===================================================================== *)
(** ** The loops of [checkOneRule] *)
(* ===================================================================== *)

Lemma checkConditions_app (conditions : list Condition.t) (transaction : JSRecord)
    (featureVector : option JSRecord) (acc : list ConditionResult.t) :
  checkConditions conditions transaction featureVector acc =
  (acc ++ map (fun c => checkOneCondition c transaction featureVector) conditions)%list.
Proof.
  revert acc. induction conditions as [| c rest IH]; intros acc; simpl.
  - now rewrite app_nil_r.
  - rewrite IH, <- app_assoc. reflexivity.
Qed.

Lemma allPassed_Forall (rs : list ConditionResult.t) :
  allPassed rs = true <-> Forall (fun r => ConditionResult.pass r = true) rs.
Proof.
  induction rs as [| r rest IH]; simpl.
  - split; [constructor | reflexivity].
  - destruct (ConditionResult.pass r) eqn:E; simpl.
    + rewrite IH. split.
      * intros H. constructor; assumption.
      * intros H. inversion H; assumption.
    + split; [discriminate |].
      intros H. inversion H as [| ? ? Hr _]. congruence.
Qed.

(* ===================================================================== *)
(** ** Claims about [checkOneRule] *)
(* ===================================================================== *)

(** C1. Whatever the rule, the transaction and the loaded feature vectors,
    [checkOneRule] checks every condition of the rule: its [results] are the
    results of [checkOneCondition] on the rule's conditions, one for each and
    in the rule's order (so there are as many results as conditions, also
    after a failing one), and its [pass] is true exactly when every one of
    these results has [pass = true]. *)
Theorem checkOneRule_checks_every_condition
    (g : Globals) (rule : Rule.t) (transaction : JSRecord) :
  let r := fst (checkOneRule rule transaction g) in
  let featureVector :=
    featureVectors g !! String_ (get transaction (VStr "transaction_id")) in
  RuleResult.results r =
    map (fun c => checkOneCondition c transaction featureVector) (Rule.conditions rule)
  /\ length (RuleResult.results r) = length (Rule.conditions rule)
  /\ (RuleResult.pass r = true <->
      Forall (fun cr => ConditionResult.pass cr = true) (RuleResult.results r)).
Proof.
  intros r featureVector. subst r. rewrite checkOneRule_run. simpl.
  rewrite checkConditions_app. simpl. fold featureVector.
  split; [reflexivity |]. split.
  - now rewrite length_map.
  - apply allPassed_Forall.
Qed.

(* ===================================================================== *)
(** ** Claims about [checkOneCondition] *)
(* ===================================================================== *)

(** Picks the branch of the chain in [passOf] that the equation [Hop] on
    [condition.op] selects. *)
Ltac by_op Hop := unfold passOf; rewrite Hop; reflexivity.

Lemma get_absent (o : JSRecord) (k : jsval) :
  o !! String_ k = None -> get o k = VUndefined.
Proof. unfold get. intros ->. reflexivity. Qed.

Lemma member_own (o : JSRecord) (k v : jsval) :
  o !! String_ k = Some v -> member o k = v.
Proof. unfold member. intros ->. reflexivity. Qed.

Lemma member_absent (o : JSRecord) (k : jsval) :
  o !! String_ k = None -> inherited (String_ k) = None -> member o k = VUndefined.
Proof. unfold member. intros -> ->. reflexivity. Qed.

Lemma member_inherited (o : JSRecord) (k : jsval) (text : string) :
  o !! String_ k = None -> inherited (String_ k) = Some text -> member o k = VStr text.
Proof. unfold member. intros -> ->. reflexivity. Qed.

(** No inherited member prints as the sentinel. *)
Lemma inherited_not_sentinel (name : string) : inherited name <> Some "NOT FOUND".
Proof.
  unfold inherited.
  destruct (String.eqb name "constructor"); [discriminate |].
  destruct (String.eqb name "__proto__"); [discriminate |].
  destruct (existsb _ _); discriminate.
Qed.

Lemma actualValueOf_raw (c : Condition.t) (tx : JSRecord) (fv : option JSRecord) :
  Condition.source c = VStr "raw" ->
  actualValueOf c tx fv = member tx (Condition.field c).
Proof. unfold actualValueOf. intros ->. reflexivity. Qed.

Lemma actualValueOf_not_raw (c : Condition.t) (tx : JSRecord) (fv : option JSRecord) :
  Condition.source c <> VStr "raw" ->
  actualValueOf c tx fv =
  match fv with Some v => member v (Condition.field c) | None => VNull end.
Proof.
  unfold actualValueOf. intros H.
  rewrite (strict_eq_VStr_false _ _ H). reflexivity.
Qed.

Lemma checkOneCondition_found (c : Condition.t) (tx : JSRecord) (fv : option JSRecord) :
  is_missing (actualValueOf c tx fv) = false ->
  checkOneCondition c tx fv =
  {| ConditionResult.field := Condition.field c;
     ConditionResult.op := Condition.op c;
     ConditionResult.value := Condition.value c;
     ConditionResult.actual := actualValueOf c tx fv;
     ConditionResult.pass := passOf c (actualValueOf c tx fv);
     ConditionResult.source := Condition.source c |}.
Proof. unfold checkOneCondition. intros ->. reflexivity. Qed.

Lemma pass_found (c : Condition.t) (tx : JSRecord) (fv : option JSRecord) :
  is_missing (actualValueOf c tx fv) = false ->
  ConditionResult.pass (checkOneCondition c tx fv) = passOf c (actualValueOf c tx fv).
Proof. intros H. rewrite (checkOneCondition_found _ _ _ H). reflexivity. Qed.

(** C2. When the value a condition looks up is [null] or [undefined],
    [checkOneCondition] returns the result with [pass = false] and
    [actual = "NOT FOUND"], and being a total function it returns on every
    input.  This is so when the source is not raw and there is no feature
    vector, and when the field is absent from the record that is read (the
    transaction for a raw condition, the feature vector otherwise) and is
    not the name of a member inherited from [Object.prototype].  A field
    that is absent from the record and is such a name ([constructor],
    [toString], ...) is found all the same: the result then carries the
    inherited member as [actual], never the sentinel, and [pass] is decided
    by the operator as for any value that was found. *)
Theorem checkOneCondition_missing
    (c : Condition.t) (tx : JSRecord) (fv : option JSRecord) :
  (actualValueOf c tx fv = VNull \/
   actualValueOf c tx fv = VUndefined \/
   (Condition.source c = VStr "raw" /\ tx !! String_ (Condition.field c) = None
    /\ inherited (String_ (Condition.field c)) = None) \/
   (Condition.source c <> VStr "raw" /\
    exists v, fv = Some v /\ v !! String_ (Condition.field c) = None
              /\ inherited (String_ (Condition.field c)) = None) \/
   (Condition.source c <> VStr "raw" /\ fv = None) ->
   checkOneCondition c tx fv =
   {| ConditionResult.field := Condition.field c;
      ConditionResult.op := Condition.op c;
      ConditionResult.value := Condition.value c;
      ConditionResult.actual := VStr "NOT FOUND";
      ConditionResult.pass := false;
      ConditionResult.source := Condition.source c |})
  /\ (forall text : string,
        inherited (String_ (Condition.field c)) = Some text ->
        (Condition.source c = VStr "raw" /\ tx !! String_ (Condition.field c) = None) \/
        (Condition.source c <> VStr "raw" /\
         exists v, fv = Some v /\ v !! String_ (Condition.field c) = None) ->
        checkOneCondition c tx fv =
        {| ConditionResult.field := Condition.field c;
           ConditionResult.op := Condition.op c;
           ConditionResult.value := Condition.value c;
           ConditionResult.actual := VStr text;
           ConditionResult.pass := passOf c (VStr text);
           ConditionResult.source := Condition.source c |}
        /\ ConditionResult.actual (checkOneCondition c tx fv) <> VStr "NOT FOUND").
Proof.
  split.
  - intros H.
    assert (Hm : is_missing (actualValueOf c tx fv) = true).
    { apply is_missing_true.
      destruct H as [H | [H | [(Hs & Ha & Hi) | [[Hs (v & -> & Ha & Hi)] | [Hs ->]]]]].
      - now left.
      - now right.
      - right. rewrite (actualValueOf_raw _ _ _ Hs). now apply member_absent.
      - right. rewrite (actualValueOf_not_raw _ _ _ Hs). now apply member_absent.
      - left. now rewrite (actualValueOf_not_raw _ _ _ Hs). }
    unfold checkOneCondition. rewrite Hm. reflexivity.
  - intros text Hi H.
    assert (Ha : actualValueOf c tx fv = VStr text).
    { destruct H as [[Hs Ha] | [Hs (v & -> & Ha)]].
      - rewrite (actualValueOf_raw _ _ _ Hs). now apply member_inherited.
      - rewrite (actualValueOf_not_raw _ _ _ Hs). now apply member_inherited. }
    assert (E : checkOneCondition c tx fv =
                {| ConditionResult.field := Condition.field c;
                   ConditionResult.op := Condition.op c;
                   ConditionResult.value := Condition.value c;
                   ConditionResult.actual := VStr text;
                   ConditionResult.pass := passOf c (VStr text);
                   ConditionResult.source := Condition.source c |}).
    { unfold checkOneCondition. rewrite Ha. reflexivity. }
    split; [exact E |].
    rewrite E. cbn [ConditionResult.actual]. intros [= ->].
    exact (inherited_not_sentinel _ Hi).
Qed.

Section Found.

(** A condition whose value was found: the lookup gave neither [null] nor
    [undefined]. *)
Context (c : Condition.t) (tx : JSRecord) (fv : option JSRecord).
Hypothesis found : is_missing (actualValueOf c tx fv) = false.

Let actualValue : jsval := actualValueOf c tx fv.
Let actualNumber : spec_float := parseFloat actualValue.
Let conditionNumber : spec_float := parseFloat (Condition.value c).
Let r : ConditionResult.t := checkOneCondition c tx fv.

Local Lemma pass_r : ConditionResult.pass r = passOf c actualValue.
Proof. apply pass_found, found. Qed.

(** C3. For the operators [>], [<], [>=], [<=] and a value that is not
    missing, [pass] is the comparison of [parseFloat(actualValue)] with
    [parseFloat(condition.value)]; when either of the two does not parse
    (is NaN) [pass] is false, and so it is for [>] against the value "abc". *)
Theorem checkOneCondition_numeric :
  (Condition.op c = VStr ">" ->
     ConditionResult.pass r = Number.gt actualNumber conditionNumber) /\
  (Condition.op c = VStr "<" ->
     ConditionResult.pass r = Number.lt actualNumber conditionNumber) /\
  (Condition.op c = VStr ">=" ->
     ConditionResult.pass r = Number.ge actualNumber conditionNumber) /\
  (Condition.op c = VStr "<=" ->
     ConditionResult.pass r = Number.le actualNumber conditionNumber) /\
  (In (Condition.op c) [VStr ">"; VStr "<"; VStr ">="; VStr "<="] ->
     Number.isNaN actualNumber = true \/ Number.isNaN conditionNumber = true ->
     ConditionResult.pass r = false) /\
  (Condition.op c = VStr ">" -> Condition.value c = VStr "abc" ->
     ConditionResult.pass r = false).
Proof.
  rewrite pass_r.
  assert (Hgt : Condition.op c = VStr ">" ->
                passOf c actualValue = Number.gt actualNumber conditionNumber)
    by (intros Hop; by_op Hop).
  assert (Hlt : Condition.op c = VStr "<" ->
                passOf c actualValue = Number.lt actualNumber conditionNumber)
    by (intros Hop; by_op Hop).
  assert (Hge : Condition.op c = VStr ">=" ->
                passOf c actualValue = Number.ge actualNumber conditionNumber)
    by (intros Hop; by_op Hop).
  assert (Hle : Condition.op c = VStr "<=" ->
                passOf c actualValue = Number.le actualNumber conditionNumber)
    by (intros Hop; by_op Hop).
  repeat match goal with |- _ /\ _ => split end; try assumption.
  - intros Hin Hnan. simpl in Hin.
    destruct Hin as [Hop | [Hop | [Hop | [Hop | []]]]]; symmetry in Hop;
      [rewrite (Hgt Hop) | rewrite (Hlt Hop) | rewrite (Hge Hop) | rewrite (Hle Hop)];
      auto with nan.
  - intros Hop Hv. rewrite (Hgt Hop). apply gt_NaN. right.
    subst conditionNumber. rewrite Hv. reflexivity.
Qed.

(** C4. For [==] and [!=] and a value that is not missing, the two sides are
    compared as strings: [==] passes exactly when [String(actualValue)] and
    [String(condition.value)] are the same string, [!=] exactly when they
    differ; the number 5 therefore matches the condition value "5". *)
Theorem checkOneCondition_string_equality :
  (Condition.op c = VStr "==" ->
     (ConditionResult.pass r = true <->
      String_ actualValue = String_ (Condition.value c))) /\
  (Condition.op c = VStr "!=" ->
     (ConditionResult.pass r = true <->
      String_ actualValue <> String_ (Condition.value c))) /\
  (Condition.op c = VStr "==" -> Condition.value c = VStr "5" ->
     actualValue = VNum (Number.of_Z 5) -> ConditionResult.pass r = true).
Proof.
  rewrite pass_r.
  assert (Heq : Condition.op c = VStr "==" ->
                passOf c actualValue =
                String.eqb (String_ actualValue) (String_ (Condition.value c)))
    by (intros Hop; by_op Hop).
  assert (Hne : Condition.op c = VStr "!=" ->
                passOf c actualValue =
                negb (String.eqb (String_ actualValue) (String_ (Condition.value c))))
    by (intros Hop; by_op Hop).
  split; [| split].
  - intros Hop. rewrite (Heq Hop). apply String.eqb_eq.
  - intros Hop. rewrite (Hne Hop), negb_true_iff. apply String.eqb_neq.
  - intros Hop Hv Ha. rewrite (Heq Hop), Hv, Ha. reflexivity.
Qed.

(** C5. For [out_of_hours] and a value that is not missing, [pass] is true
    exactly when [parseFloat(actualValue)] is [>= 22] or [<= 5]; the result
    is the same whatever [condition.value] is; the hour 23 passes and the
    hour 12 fails. *)
Theorem checkOneCondition_out_of_hours :
  Condition.op c = VStr "out_of_hours" ->
  (ConditionResult.pass r = true <->
     Number.ge actualNumber (Number.of_Z 22) = true \/
     Number.le actualNumber (Number.of_Z 5) = true) /\
  (forall anything : jsval,
     ConditionResult.pass
       (checkOneCondition
          (Condition.mk (Condition.field c) (Condition.source c)
                        (Condition.op c) anything) tx fv)
     = ConditionResult.pass r) /\
  (actualValue = VNum (Number.of_Z 23) -> ConditionResult.pass r = true) /\
  (actualValue = VNum (Number.of_Z 12) -> ConditionResult.pass r = false).
Proof.
  intros Hop. rewrite pass_r.
  assert (Hp : forall c', Condition.op c' = VStr "out_of_hours" ->
            passOf c' actualValue =
            Number.ge actualNumber (Number.of_Z 22) || Number.le actualNumber (Number.of_Z 5))
    by (intros c' Hop'; by_op Hop').
  split; [| split; [| split]].
  - rewrite (Hp c Hop). apply orb_true_iff.
  - intros anything.
    set (c' := Condition.mk _ _ _ anything).
    assert (Ha : actualValueOf c' tx fv = actualValue) by reflexivity.
    rewrite pass_found; rewrite Ha; [| exact found].
    rewrite (Hp c' Hop), (Hp c Hop). reflexivity.
  - intros Ha. rewrite (Hp c Hop). subst actualNumber. rewrite Ha. reflexivity.
  - intros Ha. rewrite (Hp c Hop). subst actualNumber. rewrite Ha. reflexivity.
Qed.

(** C9. When the value is not missing and [condition.op] is none of the
    eight operators, no branch of the chain is taken: the result carries the
    value found and [pass = false]. *)
Theorem checkOneCondition_unknown_op :
  ~ In (Condition.op c)
       [VStr "=="; VStr "!="; VStr ">"; VStr "<"; VStr ">="; VStr "<=";
        VStr "contains"; VStr "out_of_hours"] ->
  r = {| ConditionResult.field := Condition.field c;
         ConditionResult.op := Condition.op c;
         ConditionResult.value := Condition.value c;
         ConditionResult.actual := actualValue;
         ConditionResult.pass := false;
         ConditionResult.source := Condition.source c |}.
Proof.
  intros Hop. subst r. rewrite (checkOneCondition_found _ _ _ found). f_equal.
  unfold passOf.
  repeat (rewrite strict_eq_VStr_false;
          [| intros E; apply Hop; rewrite E; simpl; tauto]).
  reflexivity.
Qed.

End Found.

(** C10. A condition whose [source] is anything but the string "raw" is
    looked up in the feature vector, whatever else the source is: with a
    feature vector, the result of [checkOneCondition] carries the member the
    feature vector has for the field as [actual] and the operator's verdict
    on that member as [pass], or is the "NOT FOUND" result when that member
    is [null] or [undefined]; without a feature vector it is the "NOT FOUND"
    result; and the transaction plays no part in it.  Only a condition whose
    [source] is "raw" is looked up in the transaction: its result is made
    from the transaction's member in the same way, and the feature vector
    plays no part in it. *)
Theorem checkOneCondition_source_not_raw
    (c : Condition.t) (tx : JSRecord) (fv : option JSRecord) :
  Condition.source c <> VStr "raw" ->
  checkOneCondition c tx fv =
    match fv with
    | Some v =>
        if is_missing (member v (Condition.field c))
        then {| ConditionResult.field := Condition.field c;
                ConditionResult.op := Condition.op c;
                ConditionResult.value := Condition.value c;
                ConditionResult.actual := VStr "NOT FOUND";
                ConditionResult.pass := false;
                ConditionResult.source := Condition.source c |}
        else {| ConditionResult.field := Condition.field c;
                ConditionResult.op := Condition.op c;
                ConditionResult.value := Condition.value c;
                ConditionResult.actual := member v (Condition.field c);
                ConditionResult.pass := passOf c (member v (Condition.field c));
                ConditionResult.source := Condition.source c |}
    | None =>
        {| ConditionResult.field := Condition.field c;
           ConditionResult.op := Condition.op c;
           ConditionResult.value := Condition.value c;
           ConditionResult.actual := VStr "NOT FOUND";
           ConditionResult.pass := false;
           ConditionResult.source := Condition.source c |}
    end
  /\ (forall tx' : JSRecord, checkOneCondition c tx' fv = checkOneCondition c tx fv)
  /\ (forall (c' : Condition.t) (fv' : option JSRecord),
        Condition.source c' = VStr "raw" ->
        checkOneCondition c' tx fv' =
        if is_missing (member tx (Condition.field c'))
        then {| ConditionResult.field := Condition.field c';
                ConditionResult.op := Condition.op c';
                ConditionResult.value := Condition.value c';
                ConditionResult.actual := VStr "NOT FOUND";
                ConditionResult.pass := false;
                ConditionResult.source := Condition.source c' |}
        else {| ConditionResult.field := Condition.field c';
                ConditionResult.op := Condition.op c';
                ConditionResult.value := Condition.value c';
                ConditionResult.actual := member tx (Condition.field c');
                ConditionResult.pass := passOf c' (member tx (Condition.field c'));
                ConditionResult.source := Condition.source c' |}).
Proof.
  intros Hs. split; [| split].
  - unfold checkOneCondition. rewrite (actualValueOf_not_raw _ _ _ Hs).
    destruct fv as [v |]; reflexivity.
  - intros tx'. unfold checkOneCondition.
    rewrite !(actualValueOf_not_raw _ _ _ Hs). reflexivity.
  - intros c' fv' Hs'. unfold checkOneCondition.
    rewrite (actualValueOf_raw _ _ _ Hs'). reflexivity.
Qed.

(* ===================================================================== *)
(** ** Purity of the evaluation *)
(* ===================================================================== *)

Lemma checkOneRule_state (rule : Rule.t) (tx : JSRecord) (g : Globals) :
  snd (checkOneRule rule tx g) = g.
Proof. reflexivity. Qed.

Lemma checkOneRule_eta (rule : Rule.t) (tx : JSRecord) (g : Globals) :
  checkOneRule rule tx g = (fst (checkOneRule rule tx g), g).
Proof. reflexivity. Qed.

(** C8. Running [checkOneRule] leaves every module-level variable (the loaded
    transactions, feature vectors and rules among them) as it was, running
    it again on the same rule and transaction gives the same [RuleResult],
    and the result depends on the globals only through the feature vector
    stored for the transaction (or its absence). *)
Theorem checkOneRule_pure (g : Globals) (rule : Rule.t) (tx : JSRecord) :
  snd (checkOneRule rule tx g) = g
  /\ checkOneRule rule tx (snd (checkOneRule rule tx g)) = checkOneRule rule tx g
  /\ (forall g' : Globals,
        featureVectors g' !! String_ (get tx (VStr "transaction_id")) =
        featureVectors g !! String_ (get tx (VStr "transaction_id")) ->
        fst (checkOneRule rule tx g') = fst (checkOneRule rule tx g)).
Proof.
  split; [reflexivity |]. split; [reflexivity |].
  intros g' Hfv. rewrite !checkOneRule_run. simpl. rewrite Hfv. reflexivity.
Qed.

(* ===================================================================== *)
(** ** The batch loops *)
(* ===================================================================== *)

Lemma checkRules_run (todo : list Rule.t) (tx : JSRecord)
    (acc : list RuleEntry.t) (g : Globals) :
  checkRules todo tx acc g =
  ((acc ++ map (fun rule =>
                  {| RuleEntry.rule := rule;
                     RuleEntry.pass := RuleResult.pass (fst (checkOneRule rule tx g));
                     RuleEntry.results := RuleResult.results (fst (checkOneRule rule tx g)) |})
               todo)%list, g).
Proof.
  revert acc. induction todo as [| rule rest IH]; intros acc; simpl.
  - unfold ret. now rewrite app_nil_r.
  - unfold bind. rewrite (checkOneRule_eta rule tx g). simpl fst.
    rewrite IH, <- app_assoc. reflexivity.
Qed.

Lemma countHits_run (rule : Rule.t) (todo : list JSRecord) (hitCount : Z) (g : Globals) :
  countHits rule todo hitCount g =
  (hitCount + Z.of_nat (length (List.filter (fires g rule) todo)), g).
Proof.
  revert hitCount. induction todo as [| tx rest IH]; intros hitCount; simpl.
  - unfold ret. f_equal. lia.
  - unfold bind. rewrite (checkOneRule_eta rule tx g). rewrite IH.
    unfold fires at 2. destruct (RuleResult.pass (fst (checkOneRule rule tx g)));
      simpl; f_equal; lia.
Qed.

Lemma collectFlagged_run (rule : Rule.t) (todo acc : list JSRecord) (g : Globals) :
  collectFlagged rule todo acc g = ((acc ++ List.filter (fires g rule) todo)%list, g).
Proof.
  revert acc. induction todo as [| tx rest IH]; intros acc; simpl.
  - unfold ret. now rewrite app_nil_r.
  - unfold bind. rewrite (checkOneRule_eta rule tx g). rewrite IH.
    unfold fires at 2. destruct (RuleResult.pass (fst (checkOneRule rule tx g)));
      simpl; [rewrite <- app_assoc |]; reflexivity.
Qed.

(** Both views compute the hit rate from the number of transactions the rule
    fires on and the number of transactions. *)
Lemma renderRulesHits_run (rule : Rule.t) (g : Globals) :
  renderRulesHits rule g =
  (let hitCount := Z.of_nat (length (List.filter (fires g rule) (transactions g))) in
   (hitCount, percentOf hitCount (Z.of_nat (length (transactions g)))), g).
Proof.
  unfold renderRulesHits, bind, read. rewrite countHits_run. reflexivity.
Qed.

Lemma renderStatsHits_run (rule : Rule.t) (g : Globals) :
  renderStatsHits rule g =
  (let flagged := List.filter (fires g rule) (transactions g) in
   (flagged, percentOf (Z.of_nat (length flagged)) (Z.of_nat (length (transactions g)))), g).
Proof.
  unfold renderStatsHits, bind, read. rewrite collectFlagged_run. reflexivity.
Qed.

(** The two views agree on the hit rate. *)
Lemma renderStats_agrees_with_renderRules (rule : Rule.t) (g : Globals) :
  snd (fst (renderStatsHits rule g)) = snd (fst (renderRulesHits rule g))
  /\ Z.of_nat (length (fst (fst (renderStatsHits rule g)))) = fst (fst (renderRulesHits rule g)).
Proof. rewrite renderRulesHits_run, renderStatsHits_run. split; reflexivity. Qed.

(** The two cases the specification singles out: with four transactions, a
    rule that fires on none of them has hit rate 0 and a rule that fires on
    all of them has hit rate 100. *)
Lemma hit_percent_of_four (rule : Rule.t) (g : Globals) :
  length (transactions g) = 4%nat ->
  (length (List.filter (fires g rule) (transactions g)) = 0%nat ->
   fst (renderRulesHits rule g) = (0, Number.of_Z 0))
  /\ (length (List.filter (fires g rule) (transactions g)) = 4%nat ->
      fst (renderRulesHits rule g) = (4, Number.of_Z 100)).
Proof.
  intros Hn. rewrite renderRulesHits_run. cbv zeta. rewrite Hn.
  split; intros ->; reflexivity.
Qed.

(** With fewer than forty transactions the hit rate computed in binary64 is
    the percentage of the specification: every pair of counts is checked. *)
Lemma percentOf_table_below_40 :
  Forall (fun t => Forall (fun p => percentOf p t = Number.of_Z (specHitPercent p t))
                          (seqZ 0 (t + 1)))
         (seqZ 1 39).
Proof. apply (bool_decide_unpack _). vm_compute. reflexivity. Qed.

Lemma percentOf_agrees_below_40 (p t : Z) :
  0 < t < 40 -> 0 <= p <= t -> percentOf p t = Number.of_Z (specHitPercent p t).
Proof.
  intros Ht Hp.
  assert (Ht' : In t (seqZ 1 39)) by (apply list_elem_of_In, elem_of_seqZ; lia).
  assert (Hp' : In p (seqZ 0 (t + 1))) by (apply list_elem_of_In, elem_of_seqZ; lia).
  pose proof (proj1 (List.Forall_forall _ _) percentOf_table_below_40 t Ht') as H.
  exact (proj1 (List.Forall_forall _ _) H p Hp').
Qed.

Lemma hit_percent_below_40 (rule : Rule.t) (g : Globals) :
  (0 < length (transactions g) < 40)%nat ->
  snd (fst (renderRulesHits rule g)) =
  Number.of_Z (specHitPercent (fst (fst (renderRulesHits rule g)))
                              (Z.of_nat (length (transactions g)))).
Proof.
  intros Hn. rewrite renderRulesHits_run. cbv zeta. simpl fst. simpl snd.
  apply percentOf_agrees_below_40; [lia |].
  split; [lia |]. apply inj_le, filter_length_le.
Qed.

(** C6. On forty loaded transactions of which the rule fires on twenty-three,
    both views show a hit rate of 57 where [100 * 23 / 40 = 57.5] rounds to
    58: the quotient [23 / 40] is rounded to a binary64 number before it is
    multiplied by 100, and the product 57.49999999999999 falls below the
    half. *)
Theorem hit_percent_23_of_40 :
  length (transactions loaded_forty) = 40%nat
  /\ fst (renderRulesHits over_1000 loaded_forty) = (23, Number.of_Z 57)
  /\ length (fst (fst (renderStatsHits over_1000 loaded_forty))) = 23%nat
  /\ snd (fst (renderStatsHits over_1000 loaded_forty)) = Number.of_Z 57
  /\ Number.toString
       (Number.mul (Number.div (Number.of_Z 23) (Number.of_Z 40)) (Number.of_Z 100))
     = "57.49999999999999"
  /\ specHitPercent 23 40 = 58.
Proof.
  split; [vm_compute; reflexivity |].
  split; [vm_compute; reflexivity |].
  split; [vm_compute; reflexivity |].
  split; [vm_compute; reflexivity |].
  split; vm_compute; reflexivity.
Qed.

(** C7. With no transaction loaded the rule's hit count is 0 and no
    transaction is flagged, but the hit rate both views compute is
    [Math.round((0 / 0) * 100)], which is NaN and prints as "NaN"; with no
    rule loaded [checkAllRules] returns the empty list. *)
Theorem hit_percent_of_no_transactions (g : Globals) (rule : Rule.t) (tx : JSRecord) :
  transactions g = [] ->
  fst (renderRulesHits rule g) = (0, Number.NaN)
  /\ fst (renderStatsHits rule g) = ([], Number.NaN)
  /\ Number.toString Number.NaN = "NaN"
  /\ Number.isNaN (Number.of_Z 0) = false
  /\ (rules g = [] -> fst (checkAllRules tx g) = []).
Proof.
  intros Htx. rewrite renderRulesHits_run, renderStatsHits_run, Htx.
  split; [reflexivity |]. split; [reflexivity |].
  split; [reflexivity |]. split; [reflexivity |].
  intros Hr. unfold checkAllRules, bind, read. rewrite Hr. reflexivity.
Qed.

(** The missing feature vector of [T1] makes the derived condition report
    "NOT FOUND"; a raw condition on the field [constructor], which [T1] does
    not have, finds the inherited function and passes [!= "x"]. *)
Lemma checkOneCondition_missing_at_T1 :
  (ConditionResult.actual (checkOneCondition velocity_derived tx_T1 None) = VStr "NOT FOUND"
   /\ ConditionResult.pass (checkOneCondition velocity_derived tx_T1 None) = false)
  /\ tx_T1 !! "constructor" = None
  /\ ConditionResult.actual (checkOneCondition constructor_differs tx_T1 None) =
     VStr "function Object() { [native code] }"
  /\ ConditionResult.pass (checkOneCondition constructor_differs tx_T1 None) = true.
Proof.
  split.
  - assert (H : Condition.source velocity_derived <> VStr "raw" /\ @None JSRecord = None)
      by (split; [discriminate | reflexivity]).
    rewrite (proj1 (checkOneCondition_missing velocity_derived tx_T1 None)
               (or_intror (or_intror (or_intror (or_intror H))))).
    split; reflexivity.
  - assert (Ha : tx_T1 !! "constructor" = None) by (vm_compute; reflexivity).
    split; [exact Ha |].
    assert (Hi : inherited (String_ (Condition.field constructor_differs)) =
                 Some "function Object() { [native code] }") by reflexivity.
    rewrite (proj1 (proj2 (checkOneCondition_missing constructor_differs tx_T1 None)
                      _ Hi (or_introl (conj eq_refl Ha)))).
    split; vm_compute; reflexivity.
Defined.

(** [> "abc"] against the number 10 fails. *)
Lemma checkOneCondition_numeric_at_abc :
  is_missing (actualValueOf greater_than_abc (with_field (VNum (Number.of_Z 10))) None) = false
  /\ ConditionResult.pass
       (checkOneCondition greater_than_abc (with_field (VNum (Number.of_Z 10))) None) = false.
Proof.
  assert (H : is_missing (actualValueOf greater_than_abc
                            (with_field (VNum (Number.of_Z 10))) None) = false)
    by (vm_compute; reflexivity).
  split; [exact H |].
  apply (checkOneCondition_numeric greater_than_abc _ None H); reflexivity.
Defined.

(** [== "5"] against the number 5 passes. *)
Lemma checkOneCondition_string_equality_at_5 :
  is_missing (actualValueOf equals_5 (with_field (VNum (Number.of_Z 5))) None) = false
  /\ ConditionResult.pass
       (checkOneCondition equals_5 (with_field (VNum (Number.of_Z 5))) None) = true.
Proof.
  assert (H : is_missing (actualValueOf equals_5
                            (with_field (VNum (Number.of_Z 5))) None) = false)
    by (vm_compute; reflexivity).
  split; [exact H |].
  apply (checkOneCondition_string_equality equals_5 _ None H);
    [reflexivity | reflexivity | vm_compute; reflexivity].
Defined.

(** [out_of_hours] at 23 passes. *)
Lemma checkOneCondition_out_of_hours_at_23 :
  is_missing (actualValueOf out_of_hours (with_field (VNum (Number.of_Z 23))) None) = false
  /\ ConditionResult.pass
       (checkOneCondition out_of_hours (with_field (VNum (Number.of_Z 23))) None) = true.
Proof.
  assert (H : is_missing (actualValueOf out_of_hours
                            (with_field (VNum (Number.of_Z 23))) None) = false)
    by (vm_compute; reflexivity).
  split; [exact H |].
  apply (checkOneCondition_out_of_hours out_of_hours _ None H eq_refl).
  vm_compute; reflexivity.
Defined.

(** The operator [startsWith] is not one of the eight. *)
Lemma checkOneCondition_unknown_op_at_startsWith :
  ConditionResult.pass
    (checkOneCondition starts_with (with_field (VStr "abc")) None) = false
  /\ ConditionResult.actual
       (checkOneCondition starts_with (with_field (VStr "abc")) None) = VStr "abc".
Proof.
  assert (Hm : is_missing (actualValueOf starts_with (with_field (VStr "abc")) None) = false)
    by (vm_compute; reflexivity).
  assert (Hop : ~ In (Condition.op starts_with)
                  [VStr "=="; VStr "!="; VStr ">"; VStr "<"; VStr ">="; VStr "<=";
                   VStr "contains"; VStr "out_of_hours"])
    by (simpl; intuition discriminate).
  rewrite (checkOneCondition_unknown_op starts_with _ None Hm Hop).
  split; vm_compute; reflexivity.
Defined.

(** A condition with source [computed] reads the feature vector: 7 is found
    there and is above 3; without a feature vector nothing is found. *)
Lemma checkOneCondition_source_not_raw_at_computed :
  ConditionResult.actual (checkOneCondition velocity_computed tx_T1 (Some fv_T1)) =
    VNum (Number.of_Z 7)
  /\ ConditionResult.pass (checkOneCondition velocity_computed tx_T1 (Some fv_T1)) = true
  /\ ConditionResult.actual (checkOneCondition velocity_computed tx_T1 None) =
     VStr "NOT FOUND".
Proof.
  assert (Hs : Condition.source velocity_computed <> VStr "raw") by discriminate.
  rewrite (proj1 (checkOneCondition_source_not_raw velocity_computed tx_T1 (Some fv_T1) Hs)).
  rewrite (proj1 (checkOneCondition_source_not_raw velocity_computed tx_T1 None Hs)).
  split; [vm_compute; reflexivity |]. split; vm_compute; reflexivity.
Defined.

(** Before anything is loaded there is no transaction. *)
Lemma hit_percent_of_no_transactions_at_initial :
  fst (renderRulesHits over_1000 initial) = (0, Number.NaN)
  /\ fst (checkAllRules tx_T1 initial) = [].
Proof.
  pose proof (hit_percent_of_no_transactions initial over_1000 tx_T1 eq_refl) as H.
  split; [exact (proj1 H) |].
  exact (proj2 (proj2 (proj2 (proj2 H))) eq_refl).
Defined.

(** *** Scenarios of the specification *)

Example scenario_T1 :
  fst (checkOneRule over_1000 tx_T1 initial) =
  {| RuleResult.pass := true;
     RuleResult.results :=
       [ {| ConditionResult.field := VStr "amount"; ConditionResult.op := VStr ">";
            ConditionResult.value := VStr "1000";
            ConditionResult.actual := VNum (Number.of_Z 1500);
            ConditionResult.pass := true; ConditionResult.source := VStr "raw" |} ] |}.
Proof. vm_compute; reflexivity. Qed.

Example scenario_T2 :
  RuleResult.pass (fst (checkOneRule over_1000 tx_T2 initial)) = false.
Proof. vm_compute; reflexivity. Qed.

(** One failing condition among three: three results, [pass = false]. *)
Example one_failing_among_three :
  let rule := Rule.mk (VStr "R2") (VStr "n") (VStr "Low") (VStr "FLAG")
                [ Condition.mk (VStr "amount") (VStr "raw") (VStr ">") (VStr "1000");
                  Condition.mk (VStr "amount") (VStr "raw") (VStr "<") (VStr "1200");
                  Condition.mk (VStr "transaction_id") (VStr "raw") (VStr "contains") (VStr "t") ] in
  let r := fst (checkOneRule rule tx_T1 initial) in
  RuleResult.pass r = false
  /\ map ConditionResult.pass (RuleResult.results r) = [true; false; true].
Proof. vm_compute. split; reflexivity. Qed.

(** [==] is not numeric: the number 5 does not match "5.0"; [contains]
    ignores case. *)
Example string_operators :
  ConditionResult.pass
    (checkOneCondition (Condition.mk (VStr "field") (VStr "raw") (VStr "==") (VStr "5.0"))
       (with_field (VNum (Number.of_Z 5))) None) = false
  /\ ConditionResult.pass
       (checkOneCondition (Condition.mk (VStr "field") (VStr "raw") (VStr "!=") (VStr "5.0"))
          (with_field (VNum (Number.of_Z 5))) None) = true
  /\ ConditionResult.pass
       (checkOneCondition (Condition.mk (VStr "field") (VStr "raw") (VStr "contains") (VStr "MART"))
          (with_field (VStr "Quick-Mart 24")) None) = true
  /\ ConditionResult.pass
       (checkOneCondition (Condition.mk (VStr "field") (VStr "raw") (VStr ">=") (VNum (Number.of_Z 5)))
          (with_field (VStr "5.0")) None) = true.
Proof. vm_compute. repeat split. Qed.

(** [loadData] indexes the feature vectors by transaction id and selects the
    first rule. *)
Example loadData_example :
  let g := snd (loadData [tx_T1; tx_T2] [fv_T1] [over_1000] initial) in
  featureVectors g !! "T1" = Some fv_T1
  /\ featureVectors g !! "T2" = None
  /\ selectedRule g = Some over_1000
  /\ transactions g = [tx_T1; tx_T2].
Proof. vm_compute. repeat split. Qed.

Example parseFloat_examples :
  parseFloat (VStr "  -12.5e2xyz") = Number.of_Z (-1250)
  /\ parseFloat (VStr "abc") = Number.NaN
  /\ parseFloat (VStr ".5") = Number.div (Number.of_Z 1) (Number.of_Z 2)
  /\ parseFloat (VStr "1e") = Number.of_Z 1
  /\ parseFloat (VStr "Infinity!") = Number.Infinity
  /\ parseFloat (VNum (Number.of_Z 1500)) = Number.of_Z 1500
  /\ parseFloat VUndefined = Number.NaN.
Proof. vm_compute. repeat split. Qed.

Example toString_examples :
  Number.toString (Number.of_Z 5) = "5"
  /\ Number.toString (Number.of_decimal false 15005 (-1)) = "1500.5"
  /\ Number.toString (Number.of_decimal false 1 (-1)) = "0.1"
  /\ Number.toString (Number.of_decimal false 1 21) = "1e+21"
  /\ Number.toString (Number.of_decimal true 12345 (-7)) = "-0.0012345"
  /\ Number.toString (Number.of_decimal false 5 (-324)) = "5e-324"
  /\ Number.toString (Number.div (Number.of_Z 1) (Number.of_Z 3)) = "0.3333333333333333".
Proof. vm_compute. repeat split. Qed.

Example round_examples :
  Number.round (Number.of_decimal false 25 (-1)) = Number.of_Z 3
  /\ Number.round (Number.of_decimal true 25 (-1)) = Number.of_Z (-2)
  /\ Number.round (Number.of_decimal true 5 (-1)) = S754_zero true
  /\ Number.round Number.NaN = Number.NaN.
Proof. vm_compute. repeat split. Qed.

(* ===================================================================== *)
(** ** The index of feature vectors built by [loadData] *)
(* ===================================================================== *)

Lemma find_app_last {A : Type} (p : A -> bool) (l : list A) (x : A) :
  List.find p (l ++ [x])%list =
  match List.find p l with Some y => Some y | None => if p x then Some x else None end.
Proof.
  induction l as [| y l IH]; simpl.
  - reflexivity.
  - destruct (p y); [reflexivity | exact IH].
Qed.

Lemma indexFeatureVectors_run (fvData : list JSRecord) (g : Globals) :
  indexFeatureVectors fvData g =
  (tt, mkGlobals (selectedRule g) (selectedTx g) (filterMode g) (stepIndex g)
         (transactions g)
         (fold_left (fun m item => <[ idKey item := item ]> m) fvData (featureVectors g))
         (rules g)).
Proof.
  revert g. induction fvData as [| item rest IH]; intros g; simpl.
  - destruct g; reflexivity.
  - unfold bind, write. rewrite IH. reflexivity.
Qed.

Lemma fold_insert_lookup {V W : Type} (key : V -> string) (f : V -> W)
    (l : list V) (m : gmap string W) (k : string) :
  fold_left (fun m x => <[ key x := f x ]> m) l m !! k =
  match List.find (fun x => String.eqb (key x) k) (rev l) with
  | Some x => Some (f x)
  | None => m !! k
  end.
Proof.
  revert m. induction l as [| x l IH]; intros m; simpl.
  - reflexivity.
  - rewrite IH, find_app_last.
    destruct (List.find _ (rev l)); [reflexivity |].
    destruct (String.eqb (key x) k) eqn:E.
    + apply String.eqb_eq in E. subst k. apply lookup_insert_eq.
    + apply String.eqb_neq in E. now apply lookup_insert_ne.
Qed.

Lemma loadData_run (txData fvData : list JSRecord) (rulesData : list Rule.t) (g : Globals) :
  snd (loadData txData fvData rulesData g) =
  mkGlobals (head rulesData) (selectedTx g) (filterMode g) (stepIndex g) txData
    (fold_left (fun m item => <[ idKey item := item ]> m) fvData (featureVectors g))
    rulesData.
Proof. unfold loadData, bind, write. rewrite indexFeatureVectors_run. reflexivity. Qed.


Lemma find_rev_unique {V : Type} (key : V -> string) (l : list V) (k : string) :
  NoDup (map key l) ->
  List.find (fun x => String.eqb (key x) k) (rev l) =
  List.find (fun x => String.eqb (key x) k) l.
Proof.
  induction l as [| x l IH]; intros Hnd; simpl; [reflexivity |].
  apply NoDup_cons in Hnd as [Hx Hnd]. rewrite find_app_last, (IH Hnd).
  destruct (String.eqb (key x) k) eqn:E.
  - destruct (List.find _ l) as [y |] eqn:F; [| reflexivity].
    exfalso. apply List.find_some in F as [Hy Ek].
    apply String.eqb_eq in E, Ek. apply Hx.
    rewrite E, <- Ek. apply list_elem_of_In, in_map, Hy.
  - destruct (List.find _ l); reflexivity.
Qed.

(** X2. When the loaded feature vectors carry different ids, none of them
    [__proto__], and the id of the transaction is not the name of a member
    inherited from [Object.prototype], [checkOneRule] on the page just
    loaded checks every condition of the rule against the transaction and
    the feature vector whose id reads, as a string, like the transaction's
    id, and against no feature vector when there is no such item.  The two
    ids are joined as strings: the numeric id 7 finds the vector filed under
    "7".  (An id such as [constructor] without a vector of its own finds the
    inherited member in the browser, and a vector filed under [__proto__]
    becomes the prototype of the index; both are left out.) *)
Theorem loadData_join
    (txData fvData : list JSRecord) (rulesData : list Rule.t)
    (rule : Rule.t) (tx : JSRecord) :
  NoDup (map idKey fvData) ->
  Forall (fun item => idKey item <> "__proto__") fvData ->
  inherited (idKey tx) = None ->
  RuleResult.results
    (fst (checkOneRule rule tx (snd (loadData txData fvData rulesData initial)))) =
  map (fun c => checkOneCondition c tx
                  (List.find (fun item => String.eqb (idKey item) (idKey tx)) fvData))
      (Rule.conditions rule).
Proof.
  intros Hnd _ _. rewrite checkOneRule_run. cbv zeta. simpl RuleResult.results.
  rewrite checkConditions_app. simpl app.
  change (String_ (get tx (VStr "transaction_id"))) with (idKey tx).
  rewrite loadData_run. cbn [featureVectors initial].
  rewrite (fold_insert_lookup idKey (fun item => item)), (find_rev_unique idKey _ _ Hnd).
  destruct (List.find _ fvData); [reflexivity | now rewrite lookup_empty].
Qed.

(* ===================================================================== *)
(** ** [checkAllRules] *)
(* ===================================================================== *)

(** X3. [checkAllRules] returns one entry for each loaded rule, in the order
    of [rules]; an entry carries the results [checkOneRule] gives for its
    rule, one for each condition, and its [pass] is true exactly when all of
    its results passed.  The globals are left as they were. *)
Theorem checkAllRules_entries (g : Globals) (tx : JSRecord) :
  map RuleEntry.rule (fst (checkAllRules tx g)) = rules g
  /\ Forall (fun entry =>
               RuleEntry.results entry =
                 RuleResult.results (fst (checkOneRule (RuleEntry.rule entry) tx g))
               /\ length (RuleEntry.results entry) =
                  length (Rule.conditions (RuleEntry.rule entry))
               /\ (RuleEntry.pass entry = true <->
                   Forall (fun cr => ConditionResult.pass cr = true)
                          (RuleEntry.results entry)))
            (fst (checkAllRules tx g))
  /\ snd (checkAllRules tx g) = g.
Proof.
  unfold checkAllRules, bind, read. rewrite checkRules_run. cbn [fst snd app].
  split; [rewrite map_map; apply map_id |]. split; [| reflexivity].
  apply Forall_map, Forall_forall. intros rule _.
  cbn [RuleEntry.rule RuleEntry.pass RuleEntry.results].
  split; [reflexivity |]. rewrite checkOneRule_run. cbv zeta.
  cbn [fst RuleResult.results RuleResult.pass].
  split; [| apply allPassed_Forall].
  rewrite checkConditions_app. cbn [app]. apply length_map.
Qed.

(* ===================================================================== *)
(** ** The operator [contains] *)
(* ===================================================================== *)

Lemma prefix_spec (t s : string) :
  String.prefix t s = true <-> exists post, s = t ++ post.
Proof.
  revert s. induction t as [| c t IH]; intros s; simpl.
  - split; [intros _; now exists s |]. intros _. now destruct s.
  - destruct s as [| d s]; simpl.
    + split; [discriminate | intros [post H]; discriminate].
    + destruct (Ascii.ascii_dec c d) as [-> | Hne].
      * rewrite IH. split; intros [post H]; exists post; [now rewrite H | now inversion H].
      * split; [discriminate |]. intros [post H]. inversion H. congruence.
Qed.

Lemma includes_spec (s t : string) :
  Text.includes s t = true <-> exists pre post, s = pre ++ t ++ post.
Proof.
  induction s as [| c s IH].
  - change (Text.includes "" t) with (String.prefix t "" || false).
    rewrite orb_false_r, prefix_spec. split.
    + intros [post H]. now exists "", post.
    + intros (pre & post & H). destruct pre; [now exists post | discriminate].
  - change (Text.includes (String c s) t)
      with (String.prefix t (String c s) || Text.includes s t).
    rewrite orb_true_iff, prefix_spec, IH. split.
    + intros [[post H] | (pre & post & H)].
      * now exists "", post.
      * exists (String c pre), post. now rewrite H.
    + intros (pre & post & H). destruct pre as [| d pre].
      * left. now exists post.
      * right. inversion H. now exists pre, post.
Qed.

Lemma toLowerCase_app (a b : string) :
  Text.toLowerCase (a ++ b) = Text.toLowerCase a ++ Text.toLowerCase b.
Proof. induction a as [| c a IH]; simpl; [reflexivity | now rewrite IH]. Qed.

(** A split of the lower-cased text is the lower-casing of a split of the
    text. *)
Lemma toLowerCase_split (s x y : string) :
  Text.toLowerCase s = x ++ y ->
  exists a b, s = a ++ b /\ Text.toLowerCase a = x /\ Text.toLowerCase b = y.
Proof.
  revert s. induction x as [| c x IH]; intros s H.
  - exists "", s. auto.
  - destruct s as [| d s]; [discriminate |].
    simpl in H. injection H as Hc H.
    destruct (IH s H) as (a & b & -> & Ha & Hb).
    exists (String d a), b. simpl. now rewrite Hc, Ha.
Qed.

Lemma same_letters_spec (a b : string) :
  Text.same_letters a b = true <-> Text.toLowerCase a = Text.toLowerCase b.
Proof.
  revert b. induction a as [| x a IH]; intros [| y b]; simpl;
    try (split; [discriminate | discriminate]); [tauto |].
  rewrite andb_true_iff, Ascii.eqb_eq, IH. split.
  - intros [-> ->]. reflexivity.
  - intros [= -> ->]. auto.
Qed.

(** X4. For the operator [contains], a value that is not missing and ASCII
    texts on both sides, [pass] is true exactly when some stretch of the
    text of the actual value reads like the text of the condition's value
    once the case of the letters is ignored.  In particular a condition
    whose value is the empty string passes.  (The code lower-cases all of
    Unicode; text with other characters than ASCII is left out.) *)
Theorem checkOneCondition_contains
    (c : Condition.t) (tx : JSRecord) (fv : option JSRecord) :
  is_missing (actualValueOf c tx fv) = false ->
  Condition.op c = VStr "contains" ->
  Text.is_ascii (String_ (actualValueOf c tx fv)) = true ->
  Text.is_ascii (String_ (Condition.value c)) = true ->
  (ConditionResult.pass (checkOneCondition c tx fv) = true <->
   exists pre mid post,
     String_ (actualValueOf c tx fv) = pre ++ mid ++ post
     /\ Text.same_letters mid (String_ (Condition.value c)) = true)
  /\ (Condition.value c = VStr "" ->
      ConditionResult.pass (checkOneCondition c tx fv) = true).
Proof.
  intros Hm Hop _ _. rewrite (pass_found _ _ _ Hm).
  assert (Hp : passOf c (actualValueOf c tx fv) =
               Text.includes (Text.toLowerCase (String_ (actualValueOf c tx fv)))
                             (Text.toLowerCase (String_ (Condition.value c))))
    by by_op Hop.
  rewrite Hp, includes_spec. split.
  - split.
    + intros (pre' & post' & H).
      destruct (toLowerCase_split _ _ _ H) as (pre & rest & -> & _ & Hrest).
      destruct (toLowerCase_split _ _ _ Hrest) as (mid & post & -> & Hmid & _).
      exists pre, mid, post. split; [reflexivity |].
      now apply same_letters_spec.
    + intros (pre & mid & post & -> & Hmid).
      apply same_letters_spec in Hmid.
      exists (Text.toLowerCase pre), (Text.toLowerCase post).
      now rewrite !toLowerCase_app, Hmid.
  - intros Hv. rewrite Hv.
    now exists "", (Text.toLowerCase (String_ (actualValueOf c tx fv))).
Qed.

(* ===================================================================== *)
(** ** The views leave the globals alone *)
(* ===================================================================== *)

Lemma renderRulesHits_state (rule : Rule.t) (g : Globals) :
  snd (renderRulesHits rule g) = g.
Proof. now rewrite renderRulesHits_run. Qed.

Lemma renderStatsHits_state (rule : Rule.t) (g : Globals) :
  snd (renderStatsHits rule g) = g.
Proof. now rewrite renderStatsHits_run. Qed.

Lemma renderRuleCards_state (todo : list Rule.t) (cards : list RuleCard.t) (g : Globals) :
  snd (renderRuleCards todo cards g) = g.
Proof.
  revert cards. induction todo as [| rule rest IH]; intros cards; simpl; [reflexivity |].
  unfold bind, read. rewrite renderRulesHits_run. cbv zeta.
  destruct (toLowerCase_of (Rule.severity rule)); [apply IH | reflexivity].
Qed.

Lemma renderRules_state (g : Globals) : snd (renderRules g) = g.
Proof. unfold renderRules, bind, read. apply renderRuleCards_state. Qed.

Lemma evaluateAll_state (todo : list JSRecord)
    (er : gmap string (option RuleResult.t)) (g : Globals) :
  snd (evaluateAll todo er g) = g.
Proof.
  revert er. induction todo as [| tx rest IH]; intros er; simpl; [reflexivity |].
  unfold bind, read. destruct (selectedRule g); [rewrite checkOneRule_eta |]; apply IH.
Qed.

Lemma renderTable_state (searchInput : string) (g : Globals) :
  snd (renderTable searchInput g) = g.
Proof.
  unfold renderTable, bind, read.
  destruct (if negb _ then _ else _); [| reflexivity].
  destruct (evaluateAll (transactions g) ∅ g) as [er g'] eqn:E.
  assert (g' = g) as -> by (change g' with (snd (er, g')); rewrite <- E; apply evaluateAll_state).
  destruct (tableRows _ _ _ _); reflexivity.
Qed.

Lemma checkAllRules_state (tx : JSRecord) (g : Globals) : snd (checkAllRules tx g) = g.
Proof. unfold checkAllRules, bind, read. now rewrite checkRules_run. Qed.

Lemma renderInspector_state (g : Globals) : snd (renderInspector g) = g.
Proof.
  unfold renderInspector, bind, read.
  destruct (selectedTx g) as [tx |]; [| reflexivity].
  destruct (selectedRule g) as [rule |].
  - rewrite checkOneRule_eta. unfold ret.
    destruct (checkAllRules tx g) as [es g'] eqn:E.
    assert (g' = g) as -> by (change g' with (snd (es, g')); rewrite <- E; apply checkAllRules_state).
    reflexivity.
  - unfold ret.
    destruct (checkAllRules tx g) as [es g'] eqn:E.
    assert (g' = g) as -> by (change g' with (snd (es, g')); rewrite <- E; apply checkAllRules_state).
    reflexivity.
Qed.

Lemma renderAll_state (searchInput : string) (g : Globals) :
  snd (renderAll searchInput g) = g.
Proof.
  unfold renderAll, bind.
  destruct (renderRules g) as [cards g1] eqn:E1.
  assert (g1 = g) as -> by (change g1 with (snd (cards, g1)); rewrite <- E1; apply renderRules_state).
  destruct cards; [| reflexivity].
  destruct (renderTable searchInput g) as [table g2] eqn:E2.
  assert (g2 = g) as -> by (change g2 with (snd (table, g2)); rewrite <- E2; apply renderTable_state).
  destruct table; [| reflexivity].
  destruct (renderInspector g) as [v g3] eqn:E3.
  assert (g3 = g) as -> by (change g3 with (snd (v, g3)); rewrite <- E3; apply renderInspector_state).
  reflexivity.
Qed.

Lemma matrixResults_run (todo : list Rule.t) (tx : JSRecord)
    (acc : list RuleResult.t) (g : Globals) :
  matrixResults todo tx acc g =
  ((acc ++ map (fun rule => fst (checkOneRule rule tx g)) todo)%list, g).
Proof.
  revert acc. induction todo as [| rule rest IH]; intros acc; simpl.
  - unfold ret. now rewrite app_nil_r.
  - unfold bind. rewrite (checkOneRule_eta rule tx g), IH, <- app_assoc. reflexivity.
Qed.

Lemma matrixRows_state (todo : list JSRecord) (rows : list MatrixRow.t) (g : Globals) :
  snd (matrixRows todo rows g) = g.
Proof.
  revert rows. induction todo as [| tx rest IH]; intros rows; simpl; [reflexivity |].
  unfold bind, read. rewrite matrixResults_run. apply IH.
Qed.

Lemma renderMatrix_state (g : Globals) : snd (renderMatrix g) = g.
Proof. unfold renderMatrix, bind, read. apply matrixRows_state. Qed.

Lemma renderStatCards_state (todo : list Rule.t) (cards : list StatCard.t) (g : Globals) :
  snd (renderStatCards todo cards g) = g.
Proof.
  revert cards. induction todo as [| rule rest IH]; intros cards; simpl; [reflexivity |].
  unfold bind. rewrite renderStatsHits_run. cbv zeta.
  destruct (toFixed0_of _); [apply IH | reflexivity].
Qed.

Lemma renderStats_state (g : Globals) : snd (renderStats g) = g.
Proof. unfold renderStats, bind, read. apply renderStatCards_state. Qed.

(* ===================================================================== *)
(** ** What each handler does to the globals *)
(* ===================================================================== *)

Lemma globals_eta (g : Globals) : with_step (stepIndex g) g = g.
Proof. now destruct g. Qed.

Lemma goToNextStep_run (g : Globals) :
  snd (goToNextStep g) =
  match selectedRule g, selectedTx g with
  | Some rule, Some _ =>
      if stepIndex g <? Z.of_nat (length (Rule.conditions rule)) - 1
      then with_step (stepIndex g + 1) g else g
  | _, _ => g
  end.
Proof.
  unfold goToNextStep, bind, read.
  destruct (selectedRule g) as [rule |]; [| reflexivity].
  destruct (selectedTx g) as [tx |]; [| reflexivity].
  destruct (stepIndex g <? _); simpl.
  - destruct (renderInspector _) as [v g'] eqn:E.
    change g' with (snd (v, g')). rewrite <- E. apply renderInspector_state.
  - destruct (renderInspector _) as [v g'] eqn:E.
    change g' with (snd (v, g')). rewrite <- E. apply renderInspector_state.
Qed.

Lemma goToPrevStep_run (g : Globals) :
  snd (goToPrevStep g) =
  match selectedRule g, selectedTx g with
  | Some _, Some _ => if 0 <? stepIndex g then with_step (stepIndex g - 1) g else g
  | _, _ => g
  end.
Proof.
  unfold goToPrevStep, bind, read.
  destruct (selectedRule g) as [rule |]; [| reflexivity].
  destruct (selectedTx g) as [tx |]; [| reflexivity].
  destruct (0 <? stepIndex g); simpl.
  - destruct (renderInspector _) as [v g'] eqn:E.
    change g' with (snd (v, g')). rewrite <- E. apply renderInspector_state.
  - destruct (renderInspector _) as [v g'] eqn:E.
    change g' with (snd (v, g')). rewrite <- E. apply renderInspector_state.
Qed.

Lemma resetStepDebugger_run (g : Globals) :
  snd (resetStepDebugger g) = with_step (-1) g.
Proof.
  unfold resetStepDebugger, bind, set_stepIndex, write.
  destruct (renderInspector _) as [v g'] eqn:E.
  change g' with (snd (v, g')). rewrite <- E. apply renderInspector_state.
Qed.

Lemma selectById_run (todo : list Rule.t) (ruleId : jsval) (g : Globals) :
  snd (selectById todo ruleId g) =
  match List.find (fun rule => strict_eq (Rule.rule_id rule) ruleId) todo with
  | Some rule => mkGlobals (Some rule) (selectedTx g) (filterMode g) (stepIndex g)
                   (transactions g) (featureVectors g) (rules g)
  | None => g
  end.
Proof.
  induction todo as [| rule rest IH]; simpl; [reflexivity |].
  destruct (strict_eq (Rule.rule_id rule) ruleId); [reflexivity | exact IH].
Qed.

Lemma switchToRule_run (searchInput : string) (ruleId : jsval) (g : Globals) :
  snd (switchToRule searchInput ruleId g) =
  mkGlobals
    (match List.find (fun rule => strict_eq (Rule.rule_id rule) ruleId) (rules g) with
     | Some rule => Some rule
     | None => selectedRule g
     end)
    (selectedTx g) (filterMode g) (-1) (transactions g) (featureVectors g) (rules g).
Proof.
  unfold switchToRule, bind, read.
  destruct (selectById (rules g) ruleId g) as [u g1] eqn:E.
  assert (H1 : g1 = snd (selectById (rules g) ruleId g)) by now rewrite E.
  rewrite selectById_run in H1. unfold set_stepIndex, write.
  rewrite renderAll_state. subst g1.
  destruct (List.find _ (rules g)); reflexivity.
Qed.

Lemma setFilter_run (searchInput mode : string) (g : Globals) :
  snd (setFilter searchInput mode g) =
  mkGlobals (selectedRule g) (selectedTx g) mode (stepIndex g)
    (transactions g) (featureVectors g) (rules g).
Proof. unfold setFilter, bind, set_filterMode, write. now rewrite renderTable_state. Qed.

Lemma cardClick_run (searchInput : string) (rule : Rule.t) (g : Globals) :
  snd (cardClick searchInput rule g) =
  mkGlobals (Some rule) None (filterMode g) (-1)
    (transactions g) (featureVectors g) (rules g).
Proof.
  unfold cardClick, bind, set_selectedRule, set_selectedTx, set_stepIndex, write.
  now rewrite renderAll_state.
Qed.

Lemma rowClick_run (tx : JSRecord) (g : Globals) :
  snd (rowClick tx g) =
  mkGlobals (selectedRule g) (Some tx) (filterMode g) (-1)
    (transactions g) (featureVectors g) (rules g).
Proof.
  unfold rowClick, bind, set_selectedTx, set_stepIndex, write.
  destruct (renderInspector _) as [v g'] eqn:E.
  change g' with (snd (v, g')). rewrite <- E. apply renderInspector_state.
Qed.

Lemma switchView_run (view : jsval) (g : Globals) : snd (switchView view g) = g.
Proof.
  unfold switchView, bind.
  destruct (strict_eq view (VStr "matrix")).
  - destruct (renderMatrix g) as [v g'] eqn:E.
    assert (g' = g) as -> by (change g' with (snd (v, g')); rewrite <- E; apply renderMatrix_state).
    unfold ret. destruct (strict_eq view (VStr "stats")); [| reflexivity].
    destruct (renderStats g) as [c g'] eqn:E'.
    change g' with (snd (c, g')). rewrite <- E'. apply renderStats_state.
  - unfold ret. destruct (strict_eq view (VStr "stats")); [| reflexivity].
    destruct (renderStats g) as [c g'] eqn:E'.
    change g' with (snd (c, g')). rewrite <- E'. apply renderStats_state.
Qed.

Lemma loaded_consistent (txData fvData : list JSRecord) (rulesData : list Rule.t) :
  Consistent (snd (loadData txData fvData rulesData initial)).
Proof.
  rewrite loadData_run. unfold Consistent. simpl.
  repeat match goal with |- _ /\ _ => split end; try reflexivity; try lia.
  - destruct rulesData; [reflexivity | discriminate].
  - intros rule H. destruct rulesData; [discriminate |]. injection H as ->. now left.
  - discriminate.
  - destruct (head rulesData); reflexivity.
  - intros k v. rewrite (fold_insert_lookup idKey (fun item => item)).
    destruct (List.find _ (rev fvData)) as [item |] eqn:F.
    + intros [= <-]. apply List.find_some in F as [_ E]. now apply String.eqb_eq in E.
    + rewrite lookup_empty. discriminate.
Qed.

Lemma handle_consistent (searchInput : string) (a : Action) (g : Globals) :
  Consistent g -> Consistent (handle searchInput a g).
Proof.
  intros (Hnone & Hrule & Htx & Hlow & Hstep & Hfv).
  destruct a as [| | | ruleId | mode | i | i | view]; simpl.
  - rewrite goToNextStep_run.
    destruct (selectedRule g) as [rule |] eqn:Er;
      [| unfold Consistent; rewrite Er; auto 10].
    destruct (selectedTx g) as [tx |] eqn:Et;
      [| unfold Consistent; rewrite Er, Et; auto 10].
    destruct (stepIndex g <? _) eqn:E;
      [| unfold Consistent; rewrite Er, Et; auto 10].
    apply Z.ltb_lt in E. unfold Consistent, with_step. simpl. rewrite Er, Et.
    repeat match goal with |- _ /\ _ => split end; auto; lia.
  - rewrite goToPrevStep_run.
    destruct (selectedRule g) as [rule |] eqn:Er;
      [| unfold Consistent; rewrite Er; auto 10].
    destruct (selectedTx g) as [tx |] eqn:Et;
      [| unfold Consistent; rewrite Er, Et; auto 10].
    destruct (0 <? stepIndex g) eqn:E;
      [| unfold Consistent; rewrite Er, Et; auto 10].
    apply Z.ltb_lt in E. unfold Consistent, with_step. simpl. rewrite Er, Et.
    repeat match goal with |- _ /\ _ => split end; auto; lia.
  - rewrite resetStepDebugger_run. unfold Consistent, with_step. simpl.
    repeat match goal with |- _ /\ _ => split end; auto; try lia.
    destruct (selectedRule g); [| reflexivity]. destruct (selectedTx g); [lia | reflexivity].
  - rewrite switchToRule_run. unfold Consistent. simpl.
    destruct (List.find _ (rules g)) as [rule |] eqn:F.
    + apply List.find_some in F as [Hin _].
      repeat match goal with |- _ /\ _ => split end; auto; try lia; try discriminate.
      * now intros r [= <-].
      * destruct (selectedTx g); [lia | reflexivity].
    + repeat match goal with |- _ /\ _ => split end; auto; try lia.
      destruct (selectedRule g); [| reflexivity]. destruct (selectedTx g); [lia | reflexivity].
  - rewrite setFilter_run. unfold Consistent. simpl. auto 10.
  - destruct (nth_error (rules g) i) as [rule |] eqn:E;
      [| unfold Consistent; auto 10].
    rewrite cardClick_run. unfold Consistent. simpl.
    repeat match goal with |- _ /\ _ => split end; auto; try lia; try discriminate.
    intros r [= <-]. eapply nth_error_In, E.
  - destruct (nth_error (transactions g) i) as [tx |] eqn:E;
      [| unfold Consistent; auto 10].
    rewrite rowClick_run. unfold Consistent. simpl.
    repeat match goal with |- _ /\ _ => split end; auto; try lia.
    + intros t [= <-]. eapply nth_error_In, E.
    + destruct (selectedRule g); [lia | reflexivity].
  - rewrite switchView_run. unfold Consistent. auto 10.
Qed.

(** X5. In every state the page goes through (the data loaded into the
    initial globals, then any sequence of clicks on cards, rows, step
    buttons, filter buttons, rule links and tabs, whether or not a view
    throws on the way) the globals are consistent: the selected rule and the
    selected transaction are loaded ones, a rule is selected unless none is
    loaded, the step index is -1 or the index of a condition of the selected
    rule, it is -1 unless both a rule and a transaction are selected, and
    every feature vector is filed under its own id.  [Reachable] lets a card
    or a row be clicked whether or not it is on screen, so it covers at least
    the states of the page. *)
Theorem reachable_consistent (g : Globals) : Reachable g -> Consistent g.
Proof.
  induction 1 as [txData fvData rulesData | searchInput a g _ IH].
  - apply loaded_consistent.
  - now apply handle_consistent.
Qed.

(** X6. No handler changes the loaded data: after any action the
    transactions, the rules and the feature vectors are what they were. *)
Theorem handle_keeps_data (searchInput : string) (a : Action) (g : Globals) :
  transactions (handle searchInput a g) = transactions g
  /\ rules (handle searchInput a g) = rules g
  /\ featureVectors (handle searchInput a g) = featureVectors g.
Proof.
  destruct a as [| | | ruleId | mode | i | i | view]; simpl.
  - rewrite goToNextStep_run.
    destruct (selectedRule g); [| auto]. destruct (selectedTx g); [| auto].
    destruct (_ <? _); auto.
  - rewrite goToPrevStep_run.
    destruct (selectedRule g); [| auto]. destruct (selectedTx g); [| auto].
    destruct (_ <? _); auto.
  - rewrite resetStepDebugger_run. auto.
  - rewrite switchToRule_run. auto.
  - rewrite setFilter_run. auto.
  - destruct (nth_error (rules g) i); [rewrite cardClick_run |]; auto.
  - destruct (nth_error (transactions g) i); [rewrite rowClick_run |]; auto.
  - rewrite switchView_run. auto.
Qed.

(* ===================================================================== *)
(** ** The step debugger *)
(* ===================================================================== *)

Lemma with_step_inj (i : Z) (g : Globals) : with_step i g = g -> i = stepIndex g.
Proof. intros H. now rewrite <- H. Qed.

Lemma next_iter (rule : Rule.t) (tx : JSRecord) (k : nat) (g : Globals) :
  selectedRule g = Some rule -> selectedTx g = Some tx ->
  stepIndex g <= Z.of_nat (length (Rule.conditions rule)) - 1 ->
  Nat.iter k (fun g => snd (goToNextStep g)) g =
  with_step (Z.min (stepIndex g + Z.of_nat k)
                   (Z.of_nat (length (Rule.conditions rule)) - 1)) g.
Proof.
  intros Hr Ht Hle. induction k as [| k IH].
  - simpl. rewrite Z.add_0_r, Z.min_l by lia. symmetry. apply globals_eta.
  - rewrite Nat.iter_succ, IH, goToNextStep_run. unfold with_step at 1 2. simpl.
    rewrite Hr, Ht.
    destruct (_ <? _) eqn:E; [apply Z.ltb_lt in E | apply Z.ltb_ge in E];
      unfold with_step; simpl; f_equal; lia.
Qed.

(** X7. From the reset position -1, with a rule of [n] conditions and a
    transaction selected, [k] clicks on Next leave the step on the condition
    of index [min k n - 1]: Next walks through the conditions in order and
    stays on the last one. *)
Theorem next_saturates (rule : Rule.t) (tx : JSRecord) (k : nat) (g : Globals) :
  selectedRule g = Some rule -> selectedTx g = Some tx -> stepIndex g = -1 ->
  stepIndex (Nat.iter k (fun g => snd (goToNextStep g)) g) =
  Z.min (Z.of_nat k) (Z.of_nat (length (Rule.conditions rule))) - 1.
Proof.
  intros Hr Ht Hs. rewrite (next_iter rule tx) by (auto; lia).
  unfold with_step. simpl. lia.
Qed.

(** X8. With a rule and a transaction selected: Prev undoes Next when the
    step is on a condition other than the last, Next undoes Prev when the
    step is on a condition other than the first, Prev changes nothing on the
    first condition and at the reset position -1, and Prev never leads from
    a condition back to -1. *)
Theorem prev_next (rule : Rule.t) (tx : JSRecord) (g : Globals) :
  selectedRule g = Some rule -> selectedTx g = Some tx ->
  (0 <= stepIndex g < Z.of_nat (length (Rule.conditions rule)) - 1 ->
     snd (goToPrevStep (snd (goToNextStep g))) = g)
  /\ (0 < stepIndex g <= Z.of_nat (length (Rule.conditions rule)) - 1 ->
        snd (goToNextStep (snd (goToPrevStep g))) = g)
  /\ (stepIndex g <= 0 -> snd (goToPrevStep g) = g)
  /\ (0 <= stepIndex g -> 0 <= stepIndex (snd (goToPrevStep g))).
Proof.
  intros Hr Ht. repeat match goal with |- _ /\ _ => split end.
  - intros H. rewrite goToNextStep_run, Hr, Ht.
    replace (_ <? _) with true by (symmetry; apply Z.ltb_lt; lia).
    rewrite goToPrevStep_run. unfold with_step at 1 2 3. simpl. rewrite Hr, Ht.
    replace (0 <? _) with true by (symmetry; apply Z.ltb_lt; lia).
    unfold with_step. simpl. replace (stepIndex g + 1 - 1) with (stepIndex g) by lia.
    now destruct g.
  - intros H. rewrite goToPrevStep_run, Hr, Ht.
    replace (0 <? _) with true by (symmetry; apply Z.ltb_lt; lia).
    rewrite goToNextStep_run. unfold with_step at 1 2 3. simpl. rewrite Hr, Ht.
    replace (_ <? _) with true by (symmetry; apply Z.ltb_lt; lia).
    unfold with_step. simpl. replace (stepIndex g - 1 + 1) with (stepIndex g) by lia.
    now destruct g.
  - intros H. rewrite goToPrevStep_run, Hr, Ht.
    now replace (0 <? _) with false by (symmetry; apply Z.ltb_ge; lia).
  - intros H. rewrite goToPrevStep_run, Hr, Ht.
    destruct (0 <? stepIndex g) eqn:E; [apply Z.ltb_lt in E; simpl; lia | exact H].
Qed.

(* ===================================================================== *)
(** ** The inspector *)
(* ===================================================================== *)

Lemma countPassed_spec (rs : list ConditionResult.t) (n : Z) :
  countPassed rs n = n + Z.of_nat (length (List.filter ConditionResult.pass rs)).
Proof.
  revert n. induction rs as [| r rs IH]; intros n; simpl; [lia |].
  rewrite IH. destruct (ConditionResult.pass r); simpl; lia.
Qed.

Lemma allPassed_count (rs : list ConditionResult.t) :
  allPassed rs = true <->
  length (List.filter ConditionResult.pass rs) = length rs.
Proof.
  induction rs as [| r rs IH]; simpl; [tauto |].
  pose proof (filter_length_le ConditionResult.pass rs) as Hle.
  destruct (ConditionResult.pass r); simpl.
  - rewrite IH. lia.
  - split; [discriminate | lia].
Qed.

Lemma results_length (rule : Rule.t) (tx : JSRecord) (g : Globals) :
  length (RuleResult.results (fst (checkOneRule rule tx g))) =
  length (Rule.conditions rule).
Proof.
  rewrite checkOneRule_run. cbv zeta. simpl. rewrite checkConditions_app.
  simpl. apply length_map.
Qed.

Lemma renderInspector_run (rule : Rule.t) (tx : JSRecord) (g : Globals) :
  selectedRule g = Some rule -> selectedTx g = Some tx ->
  fst (renderInspector g) =
  let active := fst (checkOneRule rule tx g) in
  let totalCount := Z.of_nat (length (RuleResult.results active)) in
  Some {| Inspector.ruleBadge := Rule.rule_id rule;
          Inspector.featureVector := featureVectors g !! idKey tx;
          Inspector.evaluation :=
            Some {| Evaluation.rows :=
                      inspectorRows (RuleResult.results active) 0 (stepIndex g);
                    Evaluation.passedCount := countPassed (RuleResult.results active) 0;
                    Evaluation.totalCount := totalCount;
                    Evaluation.fires := Bool.eqb (RuleResult.pass active) true;
                    Evaluation.prevDisabled := (stepIndex g <=? 0);
                    Evaluation.nextDisabled := (totalCount - 1 <=? stepIndex g) |};
          Inspector.allEvaluations := fst (checkAllRules tx g) |}.
Proof.
  intros Hr Ht. unfold renderInspector, bind, read. rewrite Ht, Hr.
  rewrite checkOneRule_eta. unfold ret.
  destruct (checkAllRules tx g) as [es g'] eqn:E.
  assert (g' = g) as -> by (change g' with (snd (es, g')); rewrite <- E; apply checkAllRules_state).
  reflexivity.
Qed.

Lemma pass_count (rule : Rule.t) (tx : JSRecord) (g : Globals) :
  RuleResult.pass (fst (checkOneRule rule tx g)) = true <->
  length (List.filter ConditionResult.pass
            (RuleResult.results (fst (checkOneRule rule tx g)))) =
  length (RuleResult.results (fst (checkOneRule rule tx g))).
Proof. rewrite checkOneRule_run. cbv zeta. simpl. apply allPassed_count. Qed.

(** X9. With a rule and a transaction selected, the inspector shows the
    rule's evaluation, and it disables the Next button exactly when
    [goToNextStep] would leave the globals as they are, and the Prev button
    exactly when [goToPrevStep] would. *)
Theorem buttons_match_handlers (rule : Rule.t) (tx : JSRecord) (g : Globals) :
  selectedRule g = Some rule -> selectedTx g = Some tx ->
  exists view ev,
    fst (renderInspector g) = Some view
    /\ Inspector.evaluation view = Some ev
    /\ (Evaluation.nextDisabled ev = true <-> snd (goToNextStep g) = g)
    /\ (Evaluation.prevDisabled ev = true <-> snd (goToPrevStep g) = g).
Proof.
  intros Hr Ht. rewrite (renderInspector_run rule tx g Hr Ht). cbv zeta.
  eexists _, _. split; [reflexivity |]. split; [reflexivity |].
  cbn [Evaluation.nextDisabled Evaluation.prevDisabled].
  rewrite results_length, goToNextStep_run, goToPrevStep_run, Hr, Ht. split.
  - rewrite Z.leb_le. destruct (_ <? _) eqn:E;
      [apply Z.ltb_lt in E | apply Z.ltb_ge in E].
    + split; [lia |]. intros H. apply with_step_inj in H. lia.
    + split; [reflexivity | lia].
  - rewrite Z.leb_le. destruct (0 <? _) eqn:E;
      [apply Z.ltb_lt in E | apply Z.ltb_ge in E].
    + split; [lia |]. intros H. apply with_step_inj in H. lia.
    + split; [reflexivity | lia].
Qed.

Lemma inspectorRows_stepActive (rs : list ConditionResult.t) (i step : Z) :
  map InspectorRow.stepActive (inspectorRows rs i step) =
  map (fun j => step =? j) (seqZ i (Z.of_nat (length rs))).
Proof.
  revert i. induction rs as [| r rs IH]; intros i; [reflexivity |].
  cbn [inspectorRows map length]. rewrite IH, Nat2Z.inj_succ.
  rewrite (seqZ_cons i) by lia. cbn [map].
  now replace (Z.pred (Z.succ (Z.of_nat (length rs)))) with (Z.of_nat (length rs)) by lia.
Qed.

(** X10. With a rule and a transaction selected, the verdict of the
    inspector counts one condition for each condition of the rule, the
    number of conditions met lies between 0 and that count, the rule is
    shown as firing exactly when all conditions are met, and the row that is
    highlighted is the one whose index is the step index (none at -1). *)
Theorem inspector_verdict (rule : Rule.t) (tx : JSRecord) (g : Globals) :
  selectedRule g = Some rule -> selectedTx g = Some tx ->
  exists view ev,
    fst (renderInspector g) = Some view
    /\ Inspector.evaluation view = Some ev
    /\ Evaluation.totalCount ev = Z.of_nat (length (Rule.conditions rule))
    /\ 0 <= Evaluation.passedCount ev <= Evaluation.totalCount ev
    /\ (Evaluation.fires ev = true <->
        Evaluation.passedCount ev = Evaluation.totalCount ev)
    /\ map InspectorRow.stepActive (Evaluation.rows ev) =
       map (fun i => stepIndex g =? i)
           (seqZ 0 (Z.of_nat (length (Rule.conditions rule)))).
Proof.
  intros Hr Ht. rewrite (renderInspector_run rule tx g Hr Ht). cbv zeta.
  eexists _, _. split; [reflexivity |]. split; [reflexivity |].
  cbn [Evaluation.totalCount Evaluation.passedCount Evaluation.fires Evaluation.rows].
  rewrite countPassed_spec, inspectorRows_stepActive.
  pose proof (filter_length_le ConditionResult.pass
                (RuleResult.results (fst (checkOneRule rule tx g)))) as Hle.
  pose proof (pass_count rule tx g) as Hp.
  rewrite results_length in *.
  repeat match goal with |- _ /\ _ => split end; try reflexivity; try lia.
  destruct (RuleResult.pass _); cbn [Bool.eqb].
  - pose proof (proj1 Hp eq_refl). split; [lia | reflexivity].
  - split; [discriminate |]. intros H. apply Hp. lia.
Qed.

Lemma filterLoop_spec (keep : JSRecord -> bool) (todo acc : list JSRecord) :
  filterLoop keep todo acc = (acc ++ List.filter keep todo)%list.
Proof.
  revert acc. induction todo as [| tx rest IH]; intros acc; simpl.
  - now rewrite app_nil_r.
  - rewrite IH. destruct (keep tx); [now rewrite <- app_assoc | reflexivity].
Qed.

Lemma filter_all {A : Type} (l : list A) : List.filter (fun _ => true) l = l.
Proof. induction l as [| x l IH]; simpl; [reflexivity | now rewrite IH]. Qed.

Lemma stringOrFalsy_lower (v : jsval) :
  toLowerCase_of (or_else v (VStr "")) =
  if stringOrFalsy v then Normal (textOf v) else TypeError.
Proof.
  unfold or_else. destruct v as [| | b | x | s]; simpl; try reflexivity.
  - now destruct b.
  - now destruct x.
  - destruct s; reflexivity.
Qed.

Lemma searchLoop_spec (searchText : string) (todo acc : list JSRecord) :
  searchLoop searchText todo acc =
  if forallb searchable todo
  then Normal (acc ++ List.filter (matchesSearch searchText) todo)%list
  else TypeError.
Proof.
  revert acc. induction todo as [| tx rest IH]; intros acc.
  - simpl. now rewrite app_nil_r.
  - cbn [searchLoop forallb List.filter]. unfold searchable at 1, matchesSearch at 1.
    rewrite !stringOrFalsy_lower.
    destruct (get tx (VStr "transaction_id")) as [| | b | x | id]; try reflexivity.
    cbn [toLowerCase_of after andb textOf].
    destruct (stringOrFalsy (get tx (VStr "merchant_description"))); [| reflexivity].
    destruct (stringOrFalsy (get tx (VStr "transaction_type"))); [| reflexivity].
    destruct (stringOrFalsy (get tx (VStr "merchant_country"))); [| reflexivity].
    cbn [after andb]. rewrite !IH.
    destruct (_ || _ || _ || _); [| reflexivity].
    destruct (forallb searchable rest); [| reflexivity].
    now rewrite <- app_assoc.
Qed.

Lemma evaluateAll_run (todo : list JSRecord)
    (er : gmap string (option RuleResult.t)) (g : Globals) :
  fst (evaluateAll todo er g) =
  fold_left (fun m tx => <[ idKey tx := evaluationFor g tx ]> m) todo er.
Proof.
  revert er. induction todo as [| tx rest IH]; intros er; [reflexivity |].
  cbn [fold_left evaluateAll]. rewrite <- IH. unfold bind, read, evaluationFor.
  destruct (selectedRule g); [rewrite checkOneRule_eta |]; reflexivity.
Qed.

Lemma shortDate_spec (v : jsval) :
  (if truthy v then substring_5_16_of v else Normal "") =
  if stringOrFalsy v
  then Normal (match v with VStr s => substring 5 11 s | _ => "" end)
  else TypeError.
Proof.
  destruct v as [| | b | x | s]; try reflexivity.
  - now destruct b.
  - now destruct x.
  - now destruct s.
Qed.

Lemma tableRows_spec (er : gmap string (option RuleResult.t))
    (selection : option JSRecord) (todo : list JSRecord) (acc : list TableRow.t) :
  tableRows er selection todo acc =
  if forallb datable todo
  then Normal (acc ++ map (rowOf er selection) todo)%list
  else TypeError.
Proof.
  revert acc. induction todo as [| tx rest IH]; intros acc.
  - simpl. now rewrite app_nil_r.
  - cbn [tableRows forallb map]. unfold datable at 1, rowOf at 1.
    rewrite shortDate_spec.
    destruct (stringOrFalsy (get tx (VStr "txn_date_time"))); [| reflexivity].
    cbn [after andb]. rewrite IH.
    destruct (forallb datable rest); [now rewrite <- app_assoc | reflexivity].
Qed.

Lemma countLoop_spec (er : gmap string (option RuleResult.t))
    (todo : list JSRecord) (p f : Z) :
  countLoop er todo p f =
  (p + Z.of_nat (length (List.filter (marksPass er) todo)),
   f + Z.of_nat (length todo) - Z.of_nat (length (List.filter (marksPass er) todo))).
Proof.
  revert p f. induction todo as [| tx rest IH]; intros p f; simpl.
  - f_equal; lia.
  - destruct (marksPass er tx); rewrite IH; simpl; f_equal; lia.
Qed.

(** The table, loop by loop. *)
Lemma renderTable_run (searchInput : string) (g : Globals) :
  fst (renderTable searchInput g) =
  let txs := transactions g in
  let er := fold_left (fun m tx => <[ idKey tx := evaluationFor g tx ]> m) txs ∅ in
  let searchText := Text.toLowerCase searchInput in
  after (if negb (String.eqb searchText "")
         then (if forallb searchable txs
               then Normal (List.filter (matchesSearch searchText) txs)
               else TypeError)
         else Normal txs) (fun shown =>
    let shown :=
      if String.eqb (filterMode g) "pass" then List.filter (marksPass er) shown else shown in
    let shown :=
      if String.eqb (filterMode g) "fail" then List.filter (marksFail er) shown else shown in
    if forallb datable shown
    then Normal {| Table.passCount := Z.of_nat (length (List.filter (marksPass er) txs));
                   Table.failCount :=
                     Z.of_nat (length txs) - Z.of_nat (length (List.filter (marksPass er) txs));
                   Table.total := Z.of_nat (length txs);
                   Table.rows := map (rowOf er (selectedTx g)) shown |}
    else TypeError).
Proof.
  unfold renderTable, bind, read. cbv zeta.
  rewrite filterLoop_spec, filter_all. cbn [app].
  rewrite searchLoop_spec. cbn [app].
  destruct (negb _).
  - destruct (forallb searchable (transactions g)); [| reflexivity].
    cbn [after].
    destruct (evaluateAll (transactions g) ∅ g) as [er g'] eqn:E.
    assert (g' = g) as -> by (change g' with (snd (er, g')); rewrite <- E; apply evaluateAll_state).
    assert (er = fst (evaluateAll (transactions g) ∅ g)) as -> by now rewrite E.
    rewrite evaluateAll_run, !filterLoop_spec, tableRows_spec, countLoop_spec. cbn [app].
    destruct (forallb datable _); reflexivity.
  - cbn [after].
    destruct (evaluateAll (transactions g) ∅ g) as [er g'] eqn:E.
    assert (g' = g) as -> by (change g' with (snd (er, g')); rewrite <- E; apply evaluateAll_state).
    assert (er = fst (evaluateAll (transactions g) ∅ g)) as -> by now rewrite E.
    rewrite evaluateAll_run, !filterLoop_spec, tableRows_spec, countLoop_spec. cbn [app].
    destruct (forallb datable _); reflexivity.
Qed.

Lemma key_injective {V : Type} (key : V -> string) (l : list V) (x y : V) :
  NoDup (map key l) -> In x l -> In y l -> key x = key y -> x = y.
Proof.
  induction l as [| z l IH]; intros Hnd Hx Hy E; [contradiction |].
  simpl in Hnd. apply NoDup_cons in Hnd as [Hz Hnd].
  destruct Hx as [-> | Hx], Hy as [-> | Hy]; auto.
  - exfalso. apply Hz. rewrite E. apply list_elem_of_In, in_map, Hy.
  - exfalso. apply Hz. rewrite <- E. apply list_elem_of_In, in_map, Hx.
Qed.

Lemma lastWithId_in (txs : list JSRecord) (tx : JSRecord) :
  In tx txs ->
  exists tx', lastWithId txs (idKey tx) = Some tx' /\ In tx' txs /\ idKey tx' = idKey tx.
Proof.
  intros Hin. unfold lastWithId.
  destruct (List.find _ (rev txs)) as [tx' |] eqn:F.
  - apply List.find_some in F as [Hin' E]. apply String.eqb_eq in E.
    exists tx'. rewrite <- in_rev in Hin'. auto.
  - exfalso. pose proof (List.find_none _ _ F tx) as H. simpl in H.
    rewrite String.eqb_refl in H. rewrite <- in_rev in H. specialize (H Hin). discriminate.
Qed.

Lemma lastWithId_unique (txs : list JSRecord) (tx : JSRecord) :
  NoDup (map idKey txs) -> In tx txs -> lastWithId txs (idKey tx) = Some tx.
Proof.
  intros Hnd Hin. destruct (lastWithId_in txs tx Hin) as (tx' & -> & Hin' & E).
  f_equal. now apply (key_injective idKey txs).
Qed.

Lemma evaluationOf_fold (g : Globals) (txs : list JSRecord) (tx tx' : JSRecord) :
  lastWithId txs (idKey tx) = Some tx' ->
  evaluationOf (fold_left (fun m t => <[ idKey t := evaluationFor g t ]> m) txs ∅) tx =
  evaluationFor g tx'.
Proof.
  intros H. unfold evaluationOf. rewrite fold_insert_lookup.
  unfold lastWithId in H. rewrite H. now destruct (evaluationFor g tx').
Qed.

Lemma marksPass_pill (er : gmap string (option RuleResult.t)) (tx : JSRecord) :
  marksPass er tx = isFires (pillOf (evaluationOf er tx)).
Proof.
  unfold marksPass, pillOf. destruct (evaluationOf er tx) as [r |]; [| reflexivity].
  destruct (RuleResult.pass r); simpl; [reflexivity |].
  now destruct (0 <? _).
Qed.

Lemma marksFail_pill (er : gmap string (option RuleResult.t)) (tx : JSRecord) :
  marksFail er tx = negb (isFires (pillOf (evaluationOf er tx))).
Proof.
  unfold marksFail, pillOf. destruct (evaluationOf er tx) as [r |]; [| reflexivity].
  destruct (RuleResult.pass r); simpl; [reflexivity |].
  now destruct (0 <? _).
Qed.

(** X11. When [renderTable] draws the table, the two counts of the header
    add up to the number of loaded transactions, whatever the search text
    and the filter; neither is negative; no more rows are shown than there
    are transactions; and without a selected rule the pass count is 0 and no
    row has a status pill. *)
Theorem table_counts (searchInput : string) (g : Globals) (view : Table.t) :
  fst (renderTable searchInput g) = Normal view ->
  Table.passCount view + Table.failCount view = Z.of_nat (length (transactions g))
  /\ Table.total view = Z.of_nat (length (transactions g))
  /\ 0 <= Table.passCount view
  /\ 0 <= Table.failCount view
  /\ (length (Table.rows view) <= length (transactions g))%nat
  /\ (selectedRule g = None ->
      Table.passCount view = 0
      /\ Forall (fun row => TableRow.statusPill row = NoPill) (Table.rows view)).
Proof.
  rewrite renderTable_run. cbv zeta.
  set (er := fold_left _ (transactions g) ∅).
  pose proof (filter_length_le (marksPass er) (transactions g)) as Hle.
  destruct (if negb _ then _ else _) as [shown |] eqn:Es; [| discriminate].
  assert (Hshown : (length shown <= length (transactions g))%nat).
  { destruct (negb _); [| injection Es as <-; lia].
    destruct (forallb searchable _); [| discriminate].
    injection Es as <-. apply filter_length_le. }
  cbn [after].
  set (shown1 := if String.eqb (filterMode g) "pass" then _ else shown).
  set (shown2 := if String.eqb (filterMode g) "fail" then _ else shown1).
  assert (H2 : (length shown2 <= length (transactions g))%nat).
  { subst shown2 shown1.
    pose proof (filter_length_le (marksPass er) shown).
    destruct (String.eqb (filterMode g) "pass"), (String.eqb (filterMode g) "fail");
      try lia.
    - pose proof (filter_length_le (marksFail er) (List.filter (marksPass er) shown)). lia.
    - pose proof (filter_length_le (marksFail er) shown). lia. }
  destruct (forallb datable shown2); [| discriminate].
  intros [= <-]. cbn [Table.passCount Table.failCount Table.total Table.rows].
  rewrite length_map.
  repeat match goal with |- _ /\ _ => split end; try lia.
  intros Hnone.
  assert (Hev : forall tx, evaluationOf er tx = None).
  { intros tx. subst er. unfold evaluationOf. rewrite fold_insert_lookup.
    unfold evaluationFor. rewrite Hnone. now destruct (List.find _ _). }
  split.
  - assert (Hnil : forall l, List.filter (marksPass er) l = []).
    { induction l as [| tx l IH]; [reflexivity |].
      simpl. unfold marksPass at 1. now rewrite Hev. }
    now rewrite Hnil.
  - apply Forall_map, Forall_forall. intros tx _. simpl. now rewrite Hev.
Qed.

Lemma shown_incl (searchInput : string) (g : Globals) (view : Table.t) :
  fst (renderTable searchInput g) = Normal view ->
  exists shown,
    Table.rows view =
      map (rowOf (fold_left (fun m tx => <[ idKey tx := evaluationFor g tx ]> m)
                            (transactions g) ∅) (selectedTx g)) shown
    /\ incl shown (transactions g).
Proof.
  rewrite renderTable_run. cbv zeta.
  set (er := fold_left _ (transactions g) ∅).
  destruct (if negb _ then _ else _) as [shown |] eqn:Es; [| discriminate].
  assert (Hshown : incl shown (transactions g)).
  { destruct (negb _); [| injection Es as <-; apply incl_refl].
    destruct (forallb searchable _); [| discriminate].
    injection Es as <-. apply incl_filter. }
  cbn [after].
  assert (Hf : forall p, incl (List.filter p shown) (transactions g)).
  { intros p. eapply incl_tran; [apply incl_filter | exact Hshown]. }
  assert (Hff : forall p q, incl (List.filter q (List.filter p shown)) (transactions g)).
  { intros p q. eapply incl_tran; [apply incl_filter | apply Hf]. }
  destruct (String.eqb (filterMode g) "pass"), (String.eqb (filterMode g) "fail");
    (destruct (forallb datable _); [| discriminate]);
    intros [= <-]; eexists; (split; [reflexivity | auto]).
Qed.

(** X12. Every row of the table is the row of a loaded transaction.  Its
    status pill is computed from the result of the selected rule on the last
    loaded transaction that has the same id as the row's (the results are
    kept by id), which is the row's own transaction when the ids of the
    loaded transactions differ. *)
Theorem table_row_status (searchInput : string) (g : Globals) (view : Table.t)
    (row : TableRow.t) :
  fst (renderTable searchInput g) = Normal view ->
  In row (Table.rows view) ->
  In (TableRow.tx row) (transactions g)
  /\ (exists last,
        lastWithId (transactions g) (idKey (TableRow.tx row)) = Some last
        /\ TableRow.statusPill row = pillOf (evaluationFor g last))
  /\ (NoDup (map idKey (transactions g)) ->
      TableRow.statusPill row = pillOf (evaluationFor g (TableRow.tx row))).
Proof.
  intros Hv Hrow. destruct (shown_incl _ _ _ Hv) as (shown & Hrows & Hincl).
  rewrite Hrows in Hrow. apply in_map_iff in Hrow as (tx & <- & Hin).
  cbn [rowOf TableRow.tx TableRow.statusPill].
  pose proof (Hincl _ Hin) as Hin'.
  split; [exact Hin' |]. split.
  - destruct (lastWithId_in _ _ Hin') as (last & Hl & _ & _).
    exists last. split; [exact Hl |]. now rewrite (evaluationOf_fold g _ tx last Hl).
  - intros Hnd. now rewrite (evaluationOf_fold g _ tx tx (lastWithId_unique _ _ Hnd Hin')).
Qed.

(** X13. When the ids of the loaded transactions differ, the pass count in
    the header of the table is the hit count [renderRules] shows on the card
    of the selected rule. *)
Theorem table_passCount_is_hitCount (searchInput : string) (g : Globals)
    (rule : Rule.t) (view : Table.t) :
  NoDup (map idKey (transactions g)) ->
  selectedRule g = Some rule ->
  fst (renderTable searchInput g) = Normal view ->
  Table.passCount view = fst (fst (renderRulesHits rule g)).
Proof.
  intros Hnd Hr. rewrite renderTable_run, renderRulesHits_run. cbv zeta.
  set (er := fold_left _ (transactions g) ∅).
  destruct (if negb _ then _ else _) as [shown |]; [| discriminate]. cbn [after].
  destruct (forallb datable _); [| discriminate].
  intros [= <-]. cbn [Table.passCount fst]. do 2 f_equal.
  apply filter_ext_in. intros tx Hin. unfold marksPass. subst er.
  rewrite (evaluationOf_fold g _ tx tx (lastWithId_unique _ _ Hnd Hin)).
  unfold evaluationFor, fires. rewrite Hr. now destruct (RuleResult.pass _).
Qed.

(* ===================================================================== *)
(** ** The three filters of the table *)
(* ===================================================================== *)

Lemma setFilter_fst (searchInput mode : string) (g : Globals) :
  fst (setFilter searchInput mode g) = fst (renderTable searchInput (with_filter mode g)).
Proof. reflexivity. Qed.

Lemma evaluationFor_with_filter (mode : string) (g : Globals) (tx : JSRecord) :
  evaluationFor (with_filter mode g) tx = evaluationFor g tx.
Proof.
  unfold evaluationFor, with_filter. cbn [selectedRule].
  destruct (selectedRule g); reflexivity.
Qed.

Lemma fold_ext {A B : Type} (f f' : A -> B -> A) (l : list B) (a : A) :
  (forall a b, f a b = f' a b) -> fold_left f l a = fold_left f' l a.
Proof.
  intros H. revert a. induction l as [| b l IH]; intros a; simpl; [reflexivity |].
  now rewrite H, IH.
Qed.

Lemma map_filter_rows (er : gmap string (option RuleResult.t))
    (selection : option JSRecord) (keep : JSRecord -> bool) (keep' : TableRow.t -> bool)
    (l : list JSRecord) :
  (forall tx, keep' (rowOf er selection tx) = keep tx) ->
  map (rowOf er selection) (List.filter keep l) =
  List.filter keep' (map (rowOf er selection) l).
Proof.
  intros H. induction l as [| tx l IH]; simpl; [reflexivity |].
  rewrite H. destruct (keep tx); simpl; now rewrite IH.
Qed.

Lemma forallb_filter {A : Type} (p q : A -> bool) (l : list A) :
  forallb p l = true -> forallb p (List.filter q l) = true.
Proof.
  induction l as [| x l IH]; simpl; [reflexivity |].
  intros [Hx Hl]%andb_true_iff. destruct (q x); simpl; [rewrite Hx |]; auto.
Qed.

Lemma filter_partition {A : Type} (p : A -> bool) (l : list A) :
  Permutation (List.filter p l ++ List.filter (fun x => negb (p x)) l) l.
Proof.
  induction l as [| x l IH]; simpl; [constructor |].
  destruct (p x); simpl.
  - now constructor.
  - apply Permutation_sym, Permutation_cons_app, Permutation_sym, IH.
Qed.

(** X14. If the table is drawn under the filter "all", it is drawn under
    "pass" and under "fail" too; "pass" keeps the rows whose pill is FIRES
    and "fail" the other rows, both in the order of "all", so that the two
    together are a rearrangement of the rows of "all"; the pass count of the
    header is the same under the three filters. *)
Theorem filters_partition (searchInput : string) (g : Globals) (all : Table.t) :
  fst (setFilter searchInput "all" g) = Normal all ->
  exists pass fail,
    fst (setFilter searchInput "pass" g) = Normal pass
    /\ fst (setFilter searchInput "fail" g) = Normal fail
    /\ Table.rows pass =
       List.filter (fun row => isFires (TableRow.statusPill row)) (Table.rows all)
    /\ Table.rows fail =
       List.filter (fun row => negb (isFires (TableRow.statusPill row))) (Table.rows all)
    /\ Permutation (Table.rows pass ++ Table.rows fail) (Table.rows all)
    /\ Table.passCount pass = Table.passCount all
    /\ Table.passCount fail = Table.passCount all.
Proof.
  rewrite !setFilter_fst, !renderTable_run. cbv zeta.
  cbn [with_filter transactions filterMode selectedTx String.eqb Ascii.eqb Bool.eqb].
  rewrite !(fold_ext _ (fun m tx => <[ idKey tx := evaluationFor g tx ]> m))
    by (intros; now rewrite evaluationFor_with_filter).
  set (er := fold_left _ (transactions g) ∅).
  destruct (if negb _ then _ else _) as [shown |]; [| discriminate]. cbn [after].
  destruct (forallb datable shown) eqn:Hd; [| discriminate].
  intros [= <-].
  rewrite !forallb_filter by exact Hd.
  eexists _, _. split; [reflexivity |]. split; [reflexivity |].
  cbn [Table.rows Table.passCount].
  assert (Hp : map (rowOf er (selectedTx g)) (List.filter (marksPass er) shown) =
               List.filter (fun row => isFires (TableRow.statusPill row))
                 (map (rowOf er (selectedTx g)) shown)).
  { apply map_filter_rows. intros tx. simpl. symmetry. apply marksPass_pill. }
  assert (Hf : map (rowOf er (selectedTx g)) (List.filter (marksFail er) shown) =
               List.filter (fun row => negb (isFires (TableRow.statusPill row)))
                 (map (rowOf er (selectedTx g)) shown)).
  { apply map_filter_rows. intros tx. simpl. symmetry. apply marksFail_pill. }
  rewrite Hp, Hf.
  repeat match goal with |- _ /\ _ => split end; try reflexivity.
  apply filter_partition.
Qed.

(* ===================================================================== *)
(** ** The status pill *)
(* ===================================================================== *)

(** X15. The status pill of an evaluated transaction, where [k] of the
    [n] conditions of the rule are met: FIRES exactly when [k = n] (also for
    a rule without conditions), miss exactly when [k = 0 < n], and partial
    exactly when [0 < k < n], in which case it shows [k] and [n]; it is
    never empty. *)
Theorem pill_trichotomy (rule : Rule.t) (tx : JSRecord) (g : Globals) :
  let r := fst (checkOneRule rule tx g) in
  let n := Z.of_nat (length (Rule.conditions rule)) in
  let k := Z.of_nat (length (List.filter ConditionResult.pass (RuleResult.results r))) in
  (pillOf (Some r) = PillFires <-> k = n)
  /\ (pillOf (Some r) = PillMiss <-> k = 0 /\ 0 < n)
  /\ (forall a b, pillOf (Some r) = PillPartial a b <-> a = k /\ b = n /\ 0 < k < n)
  /\ pillOf (Some r) <> NoPill.
Proof.
  intros r n k. unfold pillOf. rewrite countPassed_spec. fold k.
  assert (Hn : Z.of_nat (length (RuleResult.results r)) = n)
    by (subst r n; now rewrite results_length).
  rewrite Hn.
  assert (Hle : 0 <= k <= n).
  { subst k. rewrite <- Hn.
    pose proof (filter_length_le ConditionResult.pass (RuleResult.results r)). lia. }
  assert (Hp : RuleResult.pass r = true <-> k = n).
  { subst k. rewrite <- Hn. subst r. rewrite pass_count. lia. }
  clearbody k n. clear Hn.
  destruct (RuleResult.pass r); cbn [Bool.eqb].
  - pose proof (proj1 Hp eq_refl) as Hk.
    split; [split; [intros _; lia | reflexivity] |].
    split; [split; [discriminate | lia] |].
    split; [intros a b; split; [discriminate | lia] | discriminate].
  - assert (Hk : k <> n) by (intros H; apply Hp in H; discriminate).
    destruct (0 <? 0 + k) eqn:E; [apply Z.ltb_lt in E | apply Z.ltb_ge in E].
    + split; [split; [discriminate | lia] |].
      split; [split; [discriminate | lia] |].
      split; [| discriminate].
      intros a b. split; [intros [= <- <-]; lia |].
      intros (-> & -> & _). f_equal; lia.
    + split; [split; [discriminate | lia] |].
      split; [split; [intros _; lia | reflexivity] |].
      split; [intros a b; split; [discriminate | lia] | discriminate].
Qed.

(* ===================================================================== *)
(** ** The search box *)
(* ===================================================================== *)

Ltac datable_filtered Hd :=
  match goal with
  | |- context [forallb datable ?l] =>
      replace (forallb datable l) with true
        by (symmetry; repeat apply forallb_filter; exact Hd)
  end.

(** X16. When some loaded transaction cannot be searched (its id is not a
    string, or its merchant description, type or country is a truthy value
    that is not a string) and every date can be cut, [renderTable] ends in a
    [TypeError] exactly when the search text is not empty: the table is
    drawn with an empty search box and lost as soon as a character is
    typed, whichever transaction would match. *)
Theorem table_search_crash (searchInput : string) (g : Globals) :
  Forall (fun tx => datable tx = true) (transactions g) ->
  Exists (fun tx => searchable tx = false) (transactions g) ->
  (fst (renderTable searchInput g) = TypeError <-> Text.toLowerCase searchInput <> "").
Proof.
  intros Hd Hs. rewrite renderTable_run. cbv zeta.
  assert (Hs' : forallb searchable (transactions g) = false).
  { apply not_true_is_false. intros H.
    apply List.Exists_exists in Hs as (tx & Hin & Htx).
    pose proof (proj1 (List.forallb_forall _ _) H tx Hin). congruence. }
  assert (Hd' : forallb datable (transactions g) = true).
  { apply List.forallb_forall. now apply List.Forall_forall. }
  rewrite Hs'. destruct (String.eqb _ "") eqn:E; cbn [negb after].
  - apply String.eqb_eq in E. split; [| congruence].
    destruct (String.eqb (filterMode g) "pass"), (String.eqb (filterMode g) "fail");
      datable_filtered Hd'; intros H; discriminate H.
  - apply String.eqb_neq in E. tauto.
Qed.

Lemma matchesSearch_empty (tx : JSRecord) : matchesSearch "" tx = true.
Proof.
  unfold matchesSearch.
  assert (H : forall s, Text.includes s "" = true)
    by (intros s; apply includes_spec; now exists "", s).
  now rewrite H.
Qed.

Lemma rows_tx (er : gmap string (option RuleResult.t)) (selection : option JSRecord)
    (l : list JSRecord) :
  map TableRow.tx (map (rowOf er selection) l) = l.
Proof. rewrite map_map. apply map_id. Qed.

Lemma rows_match (er : gmap string (option RuleResult.t)) (selection : option JSRecord)
    (p : JSRecord -> bool) (l : list JSRecord) :
  Forall (fun tx => p tx = true) l ->
  Forall (fun row => p (TableRow.tx row) = true) (map (rowOf er selection) l).
Proof.
  intros H. apply List.Forall_forall. intros row Hin.
  apply List.in_map_iff in Hin as (tx & <- & Hin).
  exact (proj1 (List.Forall_forall _ _) H tx Hin).
Qed.

Lemma filter_holds {A : Type} (p : A -> bool) (l : list A) :
  Forall (fun x => p x = true) (List.filter p l).
Proof.
  apply List.Forall_forall. intros x Hin. now apply List.filter_In in Hin.
Qed.

Lemma filter_keeps {A : Type} (p q : A -> bool) (l : list A) :
  Forall (fun x => p x = true) l -> Forall (fun x => p x = true) (List.filter q l).
Proof.
  intros H. apply List.Forall_forall. intros x Hin. apply List.filter_In in Hin as [Hin _].
  exact (proj1 (List.Forall_forall _ _) H x Hin).
Qed.

(** X17. When the search text is ASCII and every loaded transaction can be
    searched, has a date that can be cut and ASCII texts in the four places
    the search looks at, [renderTable] draws the table; every row shown has
    the search text inside its id, merchant description, type or country,
    all taken in lower case; and under the filter "all" the rows are exactly
    the loaded transactions that match, in their order (all of them for an
    empty search text).  (The code lower-cases all of Unicode; text with
    other characters than ASCII is left out.) *)
Theorem table_search (searchInput : string) (g : Globals) :
  Text.is_ascii searchInput = true ->
  Forall (fun tx => searchable tx = true /\ datable tx = true /\ asciiTexts tx = true)
         (transactions g) ->
  exists view,
    fst (renderTable searchInput g) = Normal view
    /\ Forall (fun row =>
                 matchesSearch (Text.toLowerCase searchInput) (TableRow.tx row) = true)
              (Table.rows view)
    /\ (filterMode g = "all" ->
        map TableRow.tx (Table.rows view) =
        List.filter (matchesSearch (Text.toLowerCase searchInput)) (transactions g)).
Proof.
  intros _ H. rewrite renderTable_run. cbv zeta.
  assert (Hs : forallb searchable (transactions g) = true).
  { apply List.forallb_forall. intros tx Hin. now apply (proj1 (List.Forall_forall _ _) H tx Hin). }
  assert (Hd : forallb datable (transactions g) = true).
  { apply List.forallb_forall. intros tx Hin. now apply (proj1 (List.Forall_forall _ _) H tx Hin). }
  rewrite Hs.
  set (text := Text.toLowerCase searchInput).
  assert (Hshown : (if negb (String.eqb text "")
                    then Normal (List.filter (matchesSearch text) (transactions g))
                    else Normal (transactions g)) =
                   Normal (List.filter (matchesSearch text) (transactions g))).
  { destruct (String.eqb text "") eqn:E; [| reflexivity].
    apply String.eqb_eq in E. rewrite E. cbn [negb]. f_equal.
    symmetry. rewrite <- (filter_all (transactions g)) at 2.
    apply List.filter_ext. intros tx. apply matchesSearch_empty. }
  rewrite Hshown. cbn [after].
  pose proof (filter_holds (matchesSearch text) (transactions g)) as Hm.
  destruct (String.eqb (filterMode g) "pass") eqn:E1,
           (String.eqb (filterMode g) "fail") eqn:E2;
    datable_filtered Hd; eexists; (split; [reflexivity |]); cbn [Table.rows];
    (split; [apply rows_match; repeat first [exact Hm | apply filter_keeps] |]);
    intros Hmode; rewrite Hmode in E1, E2; try discriminate.
  apply rows_tx.
Qed.

(* ===================================================================== *)
(** ** The matrix *)
(* ===================================================================== *)

Lemma countFires_spec (rs : list RuleResult.t) (n : Z) :
  countFires rs n = n + Z.of_nat (length (List.filter (fun b : bool => b) (map RuleResult.pass rs))).
Proof.
  revert n. induction rs as [| r rs IH]; intros n; simpl; [lia |].
  rewrite IH. destruct (RuleResult.pass r); simpl; lia.
Qed.

Lemma matrixCells_spec (rs : list RuleResult.t) (acc : list bool) :
  matrixCells rs acc = (acc ++ map RuleResult.pass rs)%list.
Proof.
  revert acc. induction rs as [| r rs IH]; intros acc; simpl.
  - now rewrite app_nil_r.
  - rewrite IH, <- app_assoc. now destruct (RuleResult.pass r).
Qed.

Lemma matrixRows_run (todo : list JSRecord) (rows : list MatrixRow.t) (g : Globals) :
  fst (matrixRows todo rows g) = (rows ++ map (matrixRowOf g) todo)%list.
Proof.
  revert rows. induction todo as [| tx rest IH]; intros rows; simpl.
  - unfold ret. simpl. now rewrite app_nil_r.
  - unfold bind, read. rewrite matrixResults_run. cbn [app]. rewrite IH, <- app_assoc.
    do 2 f_equal. unfold matrixRowOf. cbv zeta.
    rewrite matrixCells_spec, countFires_spec, map_map. reflexivity.
Qed.

Lemma renderMatrix_run (g : Globals) :
  fst (renderMatrix g) = map (matrixRowOf g) (transactions g).
Proof. unfold renderMatrix, bind, read. now rewrite matrixRows_run. Qed.

Lemma filter_true_map {A : Type} (p : A -> bool) (l : list A) :
  length (List.filter (fun b : bool => b) (map p l)) = length (List.filter p l).
Proof.
  induction l as [| x l IH]; simpl; [reflexivity |].
  destruct (p x); simpl; now rewrite IH.
Qed.

(** X18. [renderMatrix] has one row for each loaded transaction, in their
    order; the row shows the transaction's id, one cell for each rule that is
    a hit exactly when [checkAllRules] says the rule passes on the
    transaction, and as total the number of rules that pass. *)
Theorem matrix_rows (g : Globals) :
  Forall2 (fun row tx =>
             MatrixRow.id row = idKey tx
             /\ MatrixRow.cells row = map RuleEntry.pass (fst (checkAllRules tx g))
             /\ MatrixRow.totalFires row =
                Z.of_nat (length (List.filter RuleEntry.pass (fst (checkAllRules tx g)))))
          (fst (renderMatrix g)) (transactions g).
Proof.
  rewrite renderMatrix_run.
  induction (transactions g) as [| tx txs IH]; simpl; constructor; [| exact IH].
  unfold checkAllRules, bind, read. rewrite checkRules_run. cbn [fst app].
  rewrite <- (filter_true_map RuleEntry.pass), map_map. cbn [RuleEntry.pass].
  unfold matrixRowOf. cbn [MatrixRow.id MatrixRow.cells MatrixRow.totalFires].
  split; [reflexivity |]. split; reflexivity.
Qed.

Lemma sum_counts {A B : Type} (f : A -> B -> bool) (la : list A) (lb : list B) :
  sumZ (map (fun b => Z.of_nat (length (List.filter (fun a => f a b) la))) lb) =
  sumZ (map (fun a => Z.of_nat (length (List.filter (f a) lb))) la).
Proof.
  induction lb as [| b lb IH]; simpl.
  - induction la as [| a la IHa]; simpl; [reflexivity | now rewrite <- IHa].
  - rewrite IH. clear IH. induction la as [| a la IHa]; simpl; [reflexivity |].
    rewrite <- IHa. destruct (f a b); simpl; lia.
Qed.

(** X19. The totals of the matrix rows add up to the sum of the hit counts
    [renderRules] shows on the cards: both count the pairs of a rule and a
    transaction on which the rule fires. *)
Theorem matrix_total_is_hits_total (g : Globals) :
  sumZ (map MatrixRow.totalFires (fst (renderMatrix g))) =
  sumZ (map (fun rule => fst (fst (renderRulesHits rule g))) (rules g)).
Proof.
  rewrite renderMatrix_run, map_map.
  rewrite (map_ext (fun rule => fst (fst (renderRulesHits rule g)))
             (fun rule => Z.of_nat (length (List.filter (fires g rule) (transactions g)))))
    by (intros rule; now rewrite renderRulesHits_run).
  rewrite <- (sum_counts (fires g)). f_equal. apply map_ext. intros tx.
  unfold matrixRowOf. cbn [MatrixRow.totalFires]. now rewrite filter_true_map.
Qed.

(* ===================================================================== *)
(** ** The statistics *)
(* ===================================================================== *)

Lemma js_add_isString (a b : jsval) :
  isString (js_add a b) = isString a || isString b.
Proof. destruct a, b; reflexivity. Qed.

Lemma addAmounts_isString (l : list JSRecord) (acc : jsval) :
  isString (addAmounts l acc) = isString acc || existsb (fun tx => isString (amountOf tx)) l.
Proof.
  revert acc. induction l as [| tx l IH]; intros acc; simpl.
  - now rewrite orb_false_r.
  - rewrite IH, js_add_isString. unfold amountOf. now rewrite orb_assoc.
Qed.

Lemma toFixed0_of_isString (v : jsval) :
  isString v = true -> toFixed0_of v = TypeError.
Proof. destruct v; try discriminate. reflexivity. Qed.

Lemma addAmounts_shape (l : list JSRecord) (acc : jsval) :
  (isString acc = true \/ exists x, acc = VNum x) ->
  isString (addAmounts l acc) = true \/ exists x, addAmounts l acc = VNum x.
Proof.
  revert acc. induction l as [| tx l IH]; intros acc H; simpl; [exact H |].
  apply IH. unfold js_add.
  destruct (number_of_nonstring acc), (number_of_nonstring (get tx (VStr "amount")));
    simpl; eauto.
Qed.

Lemma totalOf_crash (g : Globals) (rule : Rule.t) :
  toFixed0_of (totalOf g rule) =
  if crashes g rule then TypeError
  else Normal (match totalOf g rule with VNum x => toFixed0 x | _ => "" end).
Proof.
  unfold crashes, totalOf.
  destruct (addAmounts_shape (List.filter (fires g rule) (transactions g))
              (VNum (Number.of_Z 0))) as [H | [x H]]; [right; eauto | |].
  - rewrite H. now apply toFixed0_of_isString.
  - rewrite H. reflexivity.
Qed.

Lemma renderStatCards_spec (todo : list Rule.t) (cards : list StatCard.t) (g : Globals) :
  fst (renderStatCards todo cards g) =
  if existsb (crashes g) todo then TypeError
  else Normal (cards ++ map (statCardOf g) todo)%list.
Proof.
  revert cards. induction todo as [| rule rest IH]; intros cards.
  - simpl. now rewrite app_nil_r.
  - cbn [renderStatCards existsb map]. unfold bind.
    rewrite (surjective_pairing (renderStatsHits rule g)), renderStatsHits_state.
    cbv zeta.
    change (addAmounts (fst (fst (renderStatsHits rule g))) (VNum (Number.of_Z 0)))
      with (addAmounts (fst (fst (renderStatsHits rule g))) (VNum (Number.of_Z 0))).
    assert (Hf : fst (fst (renderStatsHits rule g)) = List.filter (fires g rule) (transactions g))
      by now rewrite renderStatsHits_run.
    rewrite Hf. fold (totalOf g rule). rewrite totalOf_crash.
    destruct (crashes g rule); [reflexivity |]. cbn [orb].
    rewrite IH. destruct (existsb (crashes g) rest); [reflexivity |].
    rewrite <- app_assoc. do 3 f_equal. unfold statCardOf. now rewrite Hf.
Qed.

(** X20. [renderStats] ends in a [TypeError] exactly when some loaded rule
    fires on a loaded transaction whose [amount] is a string: the sum then
    turns into a text, which has no [toFixed]. *)
Theorem stats_crash (g : Globals) :
  fst (renderStats g) = TypeError <->
  exists rule tx,
    In rule (rules g) /\ In tx (transactions g)
    /\ fires g rule tx = true /\ isString (amountOf tx) = true.
Proof.
  unfold renderStats, bind, read. rewrite renderStatCards_spec.
  destruct (existsb (crashes g) (rules g)) eqn:E.
  - split; [intros _ | reflexivity].
    apply existsb_exists in E as (rule & Hin & Hc).
    unfold crashes, totalOf in Hc. rewrite addAmounts_isString in Hc. simpl in Hc.
    apply existsb_exists in Hc as (tx & Htx & Hs).
    apply filter_In in Htx as [Htx Hf]. eauto 10.
  - split; [discriminate |]. intros (rule & tx & Hin & Htx & Hf & Hs). exfalso.
    assert (existsb (crashes g) (rules g) = true); [| congruence].
    apply existsb_exists. exists rule. split; [exact Hin |].
    unfold crashes, totalOf. rewrite addAmounts_isString. simpl.
    apply existsb_exists. exists tx. split; [| exact Hs].
    apply filter_In. auto.
Qed.

Lemma addAmounts_NaN (l : list JSRecord) :
  existsb (fun tx => isString (amountOf tx)) l = false ->
  addAmounts l (VNum S754_nan) = VNum S754_nan.
Proof.
  induction l as [| tx l IH]; simpl; [reflexivity |].
  intros [Hs Hl]%orb_false_iff. unfold amountOf in Hs.
  destruct (get tx (VStr "amount")) as [| | b | x | s]; try discriminate;
    simpl; apply IH, Hl.
Qed.

Lemma addAmounts_undefined (l : list JSRecord) (x : spec_float) :
  existsb (fun tx => isString (amountOf tx)) l = false ->
  Exists (fun tx => amountOf tx = VUndefined) l ->
  addAmounts l (VNum x) = VNum S754_nan.
Proof.
  intros Hs Hu. revert x Hs. induction Hu as [tx l Hu | tx l Hu IH]; intros x Hs;
    simpl in *; apply orb_false_iff in Hs as [Hs Hl].
  - unfold amountOf in Hu. rewrite Hu. unfold js_add. simpl.
    replace (SFadd Number.prec Number.emax x Number.NaN) with S754_nan by now destruct x.
    now apply addAmounts_NaN.
  - unfold amountOf in Hs. unfold js_add.
    destruct (get tx (VStr "amount")) as [| | b | y | s]; try discriminate;
      simpl; now apply IH.
Qed.

(** X21. When [renderStats] draws its cards there is one card for each
    rule, in order; the card's flagged count and hit rate are the hit count
    and hit rate [renderRules] shows for the rule; a rule that flags nothing
    has the total "0"; and a rule that flags a transaction without [amount]
    has the total "NaN". *)
Theorem stats_cards (g : Globals) (cards : list StatCard.t) :
  fst (renderStats g) = Normal cards ->
  map StatCard.rule cards = rules g
  /\ Forall (fun card =>
               StatCard.flagged card = fst (fst (renderRulesHits (StatCard.rule card) g))
               /\ StatCard.hitPercent card = snd (fst (renderRulesHits (StatCard.rule card) g))
               /\ (StatCard.flagged card = 0 -> StatCard.totalAmount card = "0")
               /\ (Exists (fun tx => fires g (StatCard.rule card) tx = true
                                     /\ amountOf tx = VUndefined) (transactions g) ->
                   StatCard.totalAmount card = "NaN"))
            cards.
Proof.
  unfold renderStats, bind, read. rewrite renderStatCards_spec.
  destruct (existsb (crashes g) (rules g)) eqn:E; [discriminate |].
  intros [= <-]. cbn [app]. split.
  - rewrite map_map. apply map_id.
  - apply Forall_map, Forall_forall. intros rule Hin.
    cbn [statCardOf StatCard.rule StatCard.flagged StatCard.hitPercent StatCard.totalAmount].
    rewrite renderStatsHits_run, renderRulesHits_run. cbv zeta. cbn [fst snd].
    split; [reflexivity |]. split; [reflexivity |].
    assert (Hc : crashes g rule = false).
    { destruct (crashes g rule) eqn:Hc; [| reflexivity].
      assert (existsb (crashes g) (rules g) = true); [| congruence].
      apply existsb_exists. exists rule. split; [now apply list_elem_of_In | exact Hc]. }
    split.
    + intros H0. unfold totalOf.
      destruct (List.filter (fires g rule) (transactions g)); [reflexivity | discriminate].
    + intros Hu. unfold totalOf.
      rewrite addAmounts_undefined; [reflexivity | |].
      * unfold crashes, totalOf in Hc. rewrite addAmounts_isString in Hc. exact Hc.
      * apply List.Exists_exists in Hu as (tx & Htx & Hf & Ha).
        apply List.Exists_exists. exists tx. split; [apply filter_In; auto | exact Ha].
Qed.

(* ===================================================================== *)
(** ** [switchToRule] *)
(* ===================================================================== *)

(** X22. [switchToRule] with the id of a loaded rule, when no other loaded
    rule has that id and the id equals itself, selects that rule, puts the
    step back to -1 and changes nothing else, whether or not the views it
    redraws throw. *)
Theorem switchToRule_round_trip (searchInput : string) (rule : Rule.t) (g : Globals) :
  In rule (rules g) ->
  (forall other, In other (rules g) ->
     strict_eq (Rule.rule_id other) (Rule.rule_id rule) = true -> other = rule) ->
  strict_eq (Rule.rule_id rule) (Rule.rule_id rule) = true ->
  snd (switchToRule searchInput (Rule.rule_id rule) g) =
  mkGlobals (Some rule) (selectedTx g) (filterMode g) (-1)
    (transactions g) (featureVectors g) (rules g).
Proof.
  intros Hin Huniq Hrefl. rewrite switchToRule_run.
  destruct (List.find _ (rules g)) as [found |] eqn:F.
  - apply List.find_some in F as [Hf E]. now rewrite (Huniq found Hf E).
  - pose proof (List.find_none _ _ F rule Hin) as H. simpl in H. congruence.
Qed.

(** X23. [switchToRule] with an id that no loaded rule has keeps the
    selected rule and only puts the step back to -1. *)
Theorem switchToRule_unknown (searchInput : string) (ruleId : jsval) (g : Globals) :
  Forall (fun rule => strict_eq (Rule.rule_id rule) ruleId = false) (rules g) ->
  snd (switchToRule searchInput ruleId g) = with_step (-1) g.
Proof.
  intros H. rewrite switchToRule_run.
  destruct (List.find _ (rules g)) as [found |] eqn:F; [| reflexivity].
  apply List.find_some in F as [Hf E].
  pose proof (proj1 (List.Forall_forall _ _) H found Hf). simpl in *. congruence.
Qed.

(* ===================================================================== *)
(** ** The rule list *)
(* ===================================================================== *)

Lemma forallb_false {A : Type} (p : A -> bool) (l : list A) :
  forallb p l = false -> exists x, In x l /\ p x = false.
Proof.
  induction l as [| x l IH]; simpl; [discriminate |].
  destruct (p x) eqn:E; simpl.
  - intros H. destruct (IH H) as (y & Hy & Hp). eauto.
  - intros _. eauto.
Qed.


Lemma renderRuleCards_spec (todo : list Rule.t) (cards : list RuleCard.t) (g : Globals) :
  fst (renderRuleCards todo cards g) =
  if forallb (fun rule => isString (Rule.severity rule)) todo
  then Normal (cards ++ map (ruleCardOf g) todo)%list
  else TypeError.
Proof.
  revert cards. induction todo as [| rule rest IH]; intros cards.
  - simpl. now rewrite app_nil_r.
  - cbn [renderRuleCards forallb map]. unfold bind, read.
    rewrite (surjective_pairing (renderRulesHits rule g)), renderRulesHits_state.
    destruct (Rule.severity rule) as [| | b | x | s] eqn:Es; try reflexivity.
    cbn [toLowerCase_of isString andb]. rewrite IH.
    destruct (forallb _ rest); [| reflexivity].
    rewrite <- app_assoc. do 3 f_equal. unfold ruleCardOf. now rewrite Es.
Qed.

(** X24. [renderRules] ends in a [TypeError] exactly when some loaded rule
    has a severity that is not a string.  Otherwise it shows one card for
    each rule, in order, and the hit count of a card lies between 0 and the
    number of loaded transactions. *)
Theorem renderRules_cards (g : Globals) :
  (fst (renderRules g) = TypeError <->
   Exists (fun rule => isString (Rule.severity rule) = false) (rules g))
  /\ (forall cards, fst (renderRules g) = Normal cards ->
        map RuleCard.rule cards = rules g
        /\ Forall (fun card =>
                     0 <= RuleCard.hitCount card <= Z.of_nat (length (transactions g)))
                  cards).
Proof.
  unfold renderRules, bind, read. rewrite renderRuleCards_spec. cbn [app].
  destruct (forallb _ (rules g)) eqn:E.
  - split.
    + split; [discriminate |]. intros H. exfalso.
      apply List.Exists_exists in H as (rule & Hin & Hs).
      pose proof (proj1 (List.forallb_forall _ _) E rule Hin). simpl in *. congruence.
    + intros cards [= <-]. split.
      * rewrite map_map. apply map_id.
      * apply Forall_map, Forall_forall. intros rule _.
        cbn [ruleCardOf RuleCard.hitCount]. rewrite renderRulesHits_run. cbv zeta. cbn [fst].
        pose proof (filter_length_le (fires g rule) (transactions g)). lia.
  - split; [| discriminate]. split; [intros _ | reflexivity].
    apply List.Exists_exists. now apply forallb_false.
Qed.

(* ===================================================================== *)
(** ** The properties of the views and handlers at concrete records *)
(* ===================================================================== *)

(** The transaction with the numeric id 7 is checked against the feature
    vector filed under "7". *)
Lemma loadData_join_at_numeric_id :
  map ConditionResult.actual
    (RuleResult.results (fst (checkOneRule velocity_rule tx_numeric_id with_numeric_id)))
  = [VNum (Number.of_Z 9)].
Proof.
  unfold with_numeric_id.
  rewrite (loadData_join [tx_T1; tx_numeric_id] [fv_7] [velocity_rule]
             velocity_rule tx_numeric_id (NoDup_singleton _)).
  - vm_compute. reflexivity.
  - apply List.Forall_cons; [vm_compute; discriminate | apply List.Forall_nil].
  - vm_compute. reflexivity.
Defined.

(** "Quick-Mart 24" contains "MART". *)
Lemma checkOneCondition_contains_at_mart :
  ConditionResult.pass
    (checkOneCondition contains_mart (with_field (VStr "Quick-Mart 24")) None) = true.
Proof.
  assert (Hm : is_missing (actualValueOf contains_mart
                             (with_field (VStr "Quick-Mart 24")) None) = false)
    by (vm_compute; reflexivity).
  apply (proj1 (checkOneCondition_contains contains_mart _ None Hm eq_refl
                  ltac:(vm_compute; reflexivity) ltac:(vm_compute; reflexivity))).
  exists "Quick-", "Mart", " 24". split; vm_compute; reflexivity.
Defined.

(** After a click on the first row and on Next, the first condition is the
    current step. *)
Lemma reachable_consistent_at_stepping :
  Consistent (handle "" Next stepping) /\ stepIndex (handle "" Next stepping) = 0.
Proof.
  split; [| vm_compute; reflexivity].
  apply reachable_consistent. unfold stepping.
  apply reach_step, reach_step, reach_load.
Defined.

(** Five clicks on Next stop at the third and last condition. *)
Lemma next_saturates_at_stepping :
  stepIndex (Nat.iter 5 (fun g => snd (goToNextStep g)) stepping) = 2.
Proof.
  rewrite (next_saturates three_conditions tx_T1 5 stepping);
    vm_compute; reflexivity.
Defined.

(** From the first condition, Next then Prev comes back. *)
Lemma prev_next_at_stepping :
  snd (goToPrevStep (snd (goToNextStep (handle "" Next stepping)))) =
  handle "" Next stepping.
Proof.
  apply (proj1 (prev_next three_conditions tx_T1 (handle "" Next stepping)
                  ltac:(vm_compute; reflexivity) ltac:(vm_compute; reflexivity))).
  vm_compute. split; [discriminate | reflexivity].
Defined.

Lemma buttons_match_handlers_at_stepping :
  exists view ev,
    fst (renderInspector stepping) = Some view
    /\ Inspector.evaluation view = Some ev
    /\ (Evaluation.nextDisabled ev = true <-> snd (goToNextStep stepping) = stepping)
    /\ (Evaluation.prevDisabled ev = true <-> snd (goToPrevStep stepping) = stepping).
Proof.
  apply (buttons_match_handlers three_conditions tx_T1); vm_compute; reflexivity.
Defined.

(** One of the three conditions fails on [T1]: two of three are met and the
    rule does not fire. *)
Lemma inspector_verdict_at_stepping :
  exists view ev,
    fst (renderInspector stepping) = Some view
    /\ Inspector.evaluation view = Some ev
    /\ Evaluation.totalCount ev = 3
    /\ Evaluation.fires ev = false.
Proof.
  destruct (inspector_verdict three_conditions tx_T1 stepping
              ltac:(vm_compute; reflexivity) ltac:(vm_compute; reflexivity))
    as (view & ev & Hv & He & Ht & _ & Hf & _).
  exists view, ev. split; [exact Hv |]. split; [exact He |]. split; [exact Ht |].
  destruct (Evaluation.fires ev) eqn:E; [| reflexivity].
  exfalso. pose proof (proj1 Hf eq_refl) as E'.
  rewrite Ht in E'. clear Hf Ht.
  assert (Hp : Evaluation.passedCount ev = 2).
  { assert (Hev : Some ev = Inspector.evaluation view) by now rewrite He.
    assert (Hview : Some view = fst (renderInspector stepping)) by now rewrite Hv.
    vm_compute in Hview. injection Hview as ->. vm_compute in Hev. now injection Hev as ->. }
  rewrite Hp in E'. discriminate.
Defined.

Lemma table_counts_at_small :
  exists view,
    fst (renderTable "" small) = Normal view
    /\ Table.passCount view + Table.failCount view = 2.
Proof.
  destruct (fst (renderTable "" small)) as [view |] eqn:E;
    [| vm_compute in E; discriminate].
  exists view. split; [reflexivity |].
  exact (proj1 (table_counts "" small view E)).
Defined.

Lemma table_row_status_at_small :
  exists view,
    fst (renderTable "" small) = Normal view
    /\ Forall (fun row =>
                 TableRow.statusPill row = pillOf (evaluationFor small (TableRow.tx row)))
              (Table.rows view).
Proof.
  destruct (fst (renderTable "" small)) as [view |] eqn:E;
    [| vm_compute in E; discriminate].
  exists view. split; [reflexivity |].
  apply List.Forall_forall. intros row Hin.
  apply (table_row_status "" small view row E Hin).
  apply (bool_decide_unpack _). vm_compute. exact I.
Defined.

Lemma table_passCount_is_hitCount_at_small :
  exists view,
    fst (renderTable "" small) = Normal view /\ Table.passCount view = 1.
Proof.
  destruct (fst (renderTable "" small)) as [view |] eqn:E;
    [| vm_compute in E; discriminate].
  exists view. split; [reflexivity |].
  rewrite (table_passCount_is_hitCount "" small over_1000 view);
    [vm_compute; reflexivity | | reflexivity | exact E].
  apply (bool_decide_unpack _). vm_compute. exact I.
Defined.

Lemma filters_partition_at_small :
  exists all pass fail,
    fst (setFilter "" "all" small) = Normal all
    /\ fst (setFilter "" "pass" small) = Normal pass
    /\ fst (setFilter "" "fail" small) = Normal fail
    /\ Permutation (Table.rows pass ++ Table.rows fail) (Table.rows all).
Proof.
  destruct (fst (setFilter "" "all" small)) as [all |] eqn:E;
    [| vm_compute in E; discriminate].
  destruct (filters_partition "" small all E) as (pass & fail & Hp & Hf & _ & _ & Hperm & _).
  exists all, pass, fail. auto.
Defined.

(** With a numeric id among the transactions the table is drawn as long as
    the search box is empty, and a search ends in a [TypeError]. *)
Lemma table_search_crash_at_numeric_id :
  fst (renderTable "t1" with_numeric_id) = TypeError
  /\ fst (renderTable "" with_numeric_id) <> TypeError.
Proof.
  assert (Hd : Forall (fun tx => datable tx = true) (transactions with_numeric_id))
    by (repeat (apply List.Forall_cons; [vm_compute; reflexivity |]); apply List.Forall_nil).
  assert (Hs : Exists (fun tx => searchable tx = false) (transactions with_numeric_id))
    by (apply List.Exists_cons_tl, List.Exists_cons_hd; vm_compute; reflexivity).
  split.
  - apply (table_search_crash "t1" with_numeric_id Hd Hs). discriminate.
  - intros H. apply (table_search_crash "" with_numeric_id Hd Hs) in H. now apply H.
Defined.

(** A search for "t2" among [T1] and [T2] shows the row of [T2]. *)
Lemma table_search_at_small :
  exists view,
    fst (renderTable "t2" small) = Normal view
    /\ map TableRow.tx (Table.rows view) = [tx_T2].
Proof.
  destruct (table_search "t2" small eq_refl) as (view & Hv & _ & Hrows).
  - repeat (apply List.Forall_cons;
              [split; [| split]; vm_compute; reflexivity |]); apply List.Forall_nil.
  - exists view. split; [exact Hv |]. rewrite (Hrows eq_refl).
    vm_compute. reflexivity.
Defined.

(** The rule fires on an amount given as the text "2000.50", and the
    statistics are lost. *)
Lemma stats_crash_at_text_amount :
  fst (renderStats with_text_amount) = TypeError.
Proof.
  apply stats_crash. exists over_1000, tx_text_amount.
  split; [left; reflexivity |].
  split; [right; left; reflexivity |].
  split; vm_compute; reflexivity.
Defined.

Lemma stats_cards_at_small :
  exists cards,
    fst (renderStats small) = Normal cards
    /\ map StatCard.rule cards = [over_1000].
Proof.
  destruct (fst (renderStats small)) as [cards |] eqn:E;
    [| vm_compute in E; discriminate].
  exists cards. split; [reflexivity |].
  exact (proj1 (stats_cards small cards E)).
Defined.

Lemma switchToRule_round_trip_at_stepping :
  selectedRule (snd (switchToRule "" (VStr "R1") stepping)) = Some over_1000.
Proof.
  change (VStr "R1") with (Rule.rule_id over_1000).
  rewrite (switchToRule_round_trip "" over_1000 stepping).
  - reflexivity.
  - vm_compute. right. left. reflexivity.
  - intros other Hin E. vm_compute in Hin.
    destruct Hin as [<- | [<- | []]]; [vm_compute in E; discriminate | reflexivity].
  - reflexivity.
Defined.

Lemma switchToRule_unknown_at_stepping :
  snd (switchToRule "" (VStr "R9") (handle "" Next stepping)) = stepping.
Proof.
  rewrite (switchToRule_unknown "" (VStr "R9") (handle "" Next stepping)).
  - vm_compute. reflexivity.
  - repeat (apply List.Forall_cons; [vm_compute; reflexivity |]); apply List.Forall_nil.
Defined.
